(** * pdn-avif, AvifNative: RGB to planar YUV conversion and the compression entry point

    A shallow embedding of [ChromaSubsampling.cpp] and [AvifNative.cpp].

    - [F32] is IEEE 754 binary32 arithmetic (the C++ [float]), built on the
      Standard Library's [SpecFloat] at precision 24 and maximal exponent 128.
      Each operation rounds to binary32, to nearest with ties to even: no
      wider intermediate precision and no fused multiply-add.
    - Plane and raster buffers are lists of bytes (a byte is a [Z] in
      [0, 256)), read with [!!] and written with [<[i:=v]>].  A C++ access
      outside a buffer is undefined behaviour; here such a read yields 0 and
      such a write changes nothing, and the theorems that depend on a write
      landing carry the geometry that makes it land.
    - Indices ([size_t], [uint32_t]) are [nat]: with 32-bit image dimensions
      and a 64-bit [size_t] no index expression of the converters wraps.
    - The codec library (libaom), the progress callback and the encoder
      behind [CompressAOMImages] are collaborators: their effects are recorded
      in a [World] threaded through the calls. *)

From Stdlib Require Import ZArith Lia Bool List.
From Stdlib Require Import Floats.SpecFloat.
From stdpp Require Import base numbers list.

Local Open Scope nat_scope.

(** ** IEEE 754 binary32 *)

Module F32.

Definition prec : Z := 24.
Definition emax : Z := 128.

Definition float : Type := spec_float.

(** A C++ [float] always holds a canonical binary32 datum; [spec_float] also
    has non-canonical triples.  [canon] is the identity on canonical data
    and every operation below returns through it, so that each value the
    program computes is canonical by construction. *)
Definition canon (x : float) : float :=
  if valid_binary prec emax x then x else S754_nan.

Definition of_Z (n : Z) : float := canon (binary_normalize prec emax n 0 false).
Definition of_nat (n : nat) : float := of_Z (Z.of_nat n).

Definition add (x y : float) : float := canon (SFadd prec emax x y).
Definition sub (x y : float) : float := canon (SFsub prec emax x y).
Definition mul (x y : float) : float := canon (SFmul prec emax x y).
Definition div (x y : float) : float := canon (SFdiv prec emax x y).
Definition ltb (x y : float) : bool := SFltb x y.

Definition zero : float := S754_zero false.
Definition one : float := Eval vm_compute in of_Z 1.
Definition two : float := Eval vm_compute in of_Z 2.
Definition half : float := Eval vm_compute in div one two.
Definition c255 : float := Eval vm_compute in of_Z 255.

(** [floorf]: the largest integral value not above [x]; zeros, infinities
    and NaN are returned as they are. *)
Definition floor (x : float) : float :=
  match x with
  | S754_finite s m e =>
      if (0 <=? e)%Z then x
      else
        let n := Z.shiftr (cond_Zopp s (Zpos m)) (- e) in
        if (n =? 0)%Z then S754_zero s else of_Z n
  | _ => x
  end.

(** [static_cast<uint8_t>(x)]: truncation toward zero.  The cast is
    undefined in C++ for NaN, the infinities and values outside
    [0, 255]; here NaN and the infinities give 0 and other values are
    reduced modulo 256. *)
Definition to_uint8 (x : float) : Z :=
  match x with
  | S754_finite s m e =>
      let t := if (0 <=? e)%Z then Z.shiftl (Zpos m) e
               else Z.shiftr (Zpos m) (- e) in
      (cond_Zopp s t mod 256)%Z
  | _ => 0%Z
  end.

End F32.

Abbreviation float := F32.float.

(** ** Data of the interface ([AvifNative.h], not among the sources: the
    records list the fields the code reads).  A [ColorBgra] is four bytes in
    the order blue, green, red, alpha. *)

Module ColorBgra.
Record t := mk { b : Z; g : Z; r : Z; a : Z }.
(** [sizeof(ColorBgra)] *)
Definition size : nat := 4.
End ColorBgra.

Module BitmapData.
Record t := mk { scan0 : list Z; width : nat; height : nat; stride : nat }.
End BitmapData.

Module YUVCoefficiants.
Record t := mk { kr : float; kg : float; kb : float }.
End YUVCoefficiants.

(** The enumerants the code names; [SubsamplingOther] stands for any other
    value a caller can put into the field. *)
Inductive YUVChromaSubsampling :=
  | Subsampling400
  | Subsampling420
  | Subsampling422
  | Subsampling444
  | IdentityMatrix
  | SubsamplingOther (raw : Z).

Definition YUVChromaSubsampling_eqb (f1 f2 : YUVChromaSubsampling) : bool :=
  match f1, f2 with
  | Subsampling400, Subsampling400
  | Subsampling420, Subsampling420
  | Subsampling422, Subsampling422
  | Subsampling444, Subsampling444
  | IdentityMatrix, IdentityMatrix => true
  | SubsamplingOther n1, SubsamplingOther n2 => (n1 =? n2)%Z
  | _, _ => false
  end.

(** ** Memory access *)

(** [p[i]] for reading. *)
Definition load (buf : list Z) (i : nat) : Z := default 0%Z (buf !! i).

(** [reinterpret_cast<const ColorBgra*>(scan0 + off)], dereferenced. *)
Definition ColorBgra_at (scan0 : list Z) (off : nat) : ColorBgra.t :=
  ColorBgra.mk (load scan0 off) (load scan0 (off + 1))
               (load scan0 (off + 2)) (load scan0 (off + 3)).

(** [memset(&p[off], 0, n)] *)
Fixpoint memset_zero (p : list Z) (off n : nat) : list Z :=
  match n with
  | O => p
  | S n' => memset_zero (<[off := 0%Z]> p) (S off) n'
  end.

(** ** Loops *)

(** [for (i = start; i < bound; i += step) body], on a state [St].  The fuel
    bounds the number of iterations; [for_range] gives [bound] of them, which
    a loop from 0 with a positive step never uses up
    (see [for_loop_enough_fuel]). *)
Fixpoint for_loop {St : Type} (fuel i bound step : nat)
    (body : nat -> St -> St) (s : St) : St :=
  match fuel with
  | O => s
  | S fuel' =>
      if i <? bound then for_loop fuel' (i + step) bound step body (body i s)
      else s
  end.

Definition for_range {St : Type} (bound step : nat)
    (body : nat -> St -> St) (s : St) : St :=
  for_loop bound 0 bound step body s.

(** ** [ChromaSubsampling.cpp], anonymous namespace *)

Module YUVBlock.
Record t := mk { y : float; u : float; v : float }.
End YUVBlock.

Inductive YuvChannel := ChanY | ChanU | ChanV.

Definition avifRoundf (v : float) : float := F32.floor (F32.add v F32.half).

Definition yuvToUNorm (chan : YuvChannel) (v : float) : Z :=
  let v := match chan with ChanY => v | _ => F32.add v F32.half end in
  let v := if F32.ltb v F32.zero then F32.zero
           else if F32.ltb F32.one v then F32.one
           else v in
  F32.to_uint8 (avifRoundf (F32.mul v F32.c255)).

(** [YUVBlock yuvBlock[2][2]]: four cells, addressed [yuvBlock[blockX][blockY]];
    the loops only use indices below 2. *)
Record YUVBlockArray := mkBlocks {
  blk00 : YUVBlock.t; blk01 : YUVBlock.t;
  blk10 : YUVBlock.t; blk11 : YUVBlock.t }.

Definition yuvBlock_get (arr : YUVBlockArray) (i j : nat) : YUVBlock.t :=
  match i, j with
  | 0, 0 => blk00 arr
  | 0, _ => blk01 arr
  | _, 0 => blk10 arr
  | _, _ => blk11 arr
  end.

Definition yuvBlock_set (arr : YUVBlockArray) (i j : nat) (x : YUVBlock.t)
    : YUVBlockArray :=
  match i, j with
  | 0, 0 => mkBlocks x (blk01 arr) (blk10 arr) (blk11 arr)
  | 0, _ => mkBlocks (blk00 arr) x (blk10 arr) (blk11 arr)
  | _, 0 => mkBlocks (blk00 arr) (blk01 arr) x (blk11 arr)
  | _, _ => mkBlocks (blk00 arr) (blk01 arr) (blk10 arr) x
  end.

(** The memory [ColorToYUV8] writes: its local block array and the three
    planes. *)
Record ConvState := mkConv {
  yuvBlock : YUVBlockArray;
  yPlane : list Z;
  uPlane : list Z;
  vPlane : list Z }.

Definition set_yuvBlock (s : ConvState) (arr : YUVBlockArray) : ConvState :=
  mkConv arr (yPlane s) (uPlane s) (vPlane s).
Definition set_yPlane (s : ConvState) (p : list Z) : ConvState :=
  mkConv (yuvBlock s) p (uPlane s) (vPlane s).
Definition set_uPlane (s : ConvState) (p : list Z) : ConvState :=
  mkConv (yuvBlock s) (yPlane s) p (vPlane s).
Definition set_vPlane (s : ConvState) (p : list Z) : ConvState :=
  mkConv (yuvBlock s) (yPlane s) (uPlane s) p.

(** The RGB to YUV conversion of one pixel (lines 134-142). *)
Definition pixelToYUV (coef : YUVCoefficiants.t) (pixel : ColorBgra.t) : YUVBlock.t :=
  let kr := YUVCoefficiants.kr coef in
  let kg := YUVCoefficiants.kg coef in
  let kb := YUVCoefficiants.kb coef in
  let rgb0 := F32.div (F32.of_Z (ColorBgra.r pixel)) F32.c255 in
  let rgb1 := F32.div (F32.of_Z (ColorBgra.g pixel)) F32.c255 in
  let rgb2 := F32.div (F32.of_Z (ColorBgra.b pixel)) F32.c255 in
  let Y := F32.add (F32.add (F32.mul kr rgb0) (F32.mul kg rgb1)) (F32.mul kb rgb2) in
  YUVBlock.mk Y
    (F32.div (F32.sub rgb2 Y) (F32.mul F32.two (F32.sub F32.one kb)))
    (F32.div (F32.sub rgb0 Y) (F32.mul F32.two (F32.sub F32.one kr))).

Definition pixel_at (bgraImage : BitmapData.t) (x y : nat) : ColorBgra.t :=
  ColorBgra_at (BitmapData.scan0 bgraImage)
               (y * BitmapData.stride bgraImage + x * ColorBgra.size).

Section ColorToYUV8.

(** [YUVConversionHelpers.h] is not among the sources: the coefficient
    lookup and the type of its key are parameters. *)
Variable ColorConversionInfo : Type.
Variable GetYUVCoefficiants : ColorConversionInfo -> YUVCoefficiants.t.

Variable bgraImage : BitmapData.t.
Variable colorInfo : ColorConversionInfo.
Variable yuvFormat : YUVChromaSubsampling.
Variables yPlaneStride uPlaneStride vPlaneStride : nat.

(** Lines 127-151: one pixel of a block. *)
Definition convertPixel (imageX imageY blockY blockX : nat) (s : ConvState)
    : ConvState :=
  let x := imageX + blockX in
  let y := imageY + blockY in
  let px := pixelToYUV (GetYUVCoefficiants colorInfo) (pixel_at bgraImage x y) in
  let s := set_yuvBlock s (yuvBlock_set (yuvBlock s) blockX blockY px) in
  let s := set_yPlane s
      (<[x + y * yPlaneStride :=
           yuvToUNorm ChanY (YUVBlock.y (yuvBlock_get (yuvBlock s) blockX blockY))]>
         (yPlane s)) in
  if YUVChromaSubsampling_eqb yuvFormat Subsampling444 then
    let s := set_uPlane s
        (<[x + y * uPlaneStride :=
             yuvToUNorm ChanU (YUVBlock.u (yuvBlock_get (yuvBlock s) blockX blockY))]>
           (uPlane s)) in
    set_vPlane s
        (<[x + y * vPlaneStride :=
             yuvToUNorm ChanV (YUVBlock.v (yuvBlock_get (yuvBlock s) blockX blockY))]>
           (vPlane s))
  else s.

(** The sums of lines 161-170 and 187-192, threaded as a pair. *)
Definition addSample (arr : YUVBlockArray) (bI bJ : nat) (sums : float * float)
    : float * float :=
  (F32.add (fst sums) (YUVBlock.u (yuvBlock_get arr bI bJ)),
   F32.add (snd sums) (YUVBlock.v (yuvBlock_get arr bI bJ))).

(** Lines 157-181. *)
Definition subsample420 (imageX imageY blockWidth blockHeight : nat)
    (s : ConvState) : ConvState :=
  let sums :=
    for_range blockHeight 1 (fun bJ =>
      for_range blockWidth 1 (fun bI => addSample (yuvBlock s) bI bJ))
      (F32.zero, F32.zero) in
  let totalSamples := F32.of_nat (blockWidth * blockHeight) in
  let avgU := F32.div (fst sums) totalSamples in
  let avgV := F32.div (snd sums) totalSamples in
  let x := Nat.shiftr imageX 1 in
  let y := Nat.shiftr imageY 1 in
  let s := set_uPlane s (<[x + y * uPlaneStride := yuvToUNorm ChanU avgU]> (uPlane s)) in
  set_vPlane s (<[x + y * vPlaneStride := yuvToUNorm ChanV avgV]> (vPlane s)).

(** Lines 186-202: one row of the block. *)
Definition subsample422Row (imageX imageY blockWidth blockY : nat)
    (s : ConvState) : ConvState :=
  let sums :=
    for_range blockWidth 1 (fun blockX => addSample (yuvBlock s) blockX blockY)
      (F32.zero, F32.zero) in
  let totalSamples := F32.of_nat blockWidth in
  let avgU := F32.div (fst sums) totalSamples in
  let avgV := F32.div (snd sums) totalSamples in
  let x := Nat.shiftr imageX 1 in
  let y := imageY + blockY in
  let s := set_uPlane s (<[x + y * uPlaneStride := yuvToUNorm ChanU avgU]> (uPlane s)) in
  set_vPlane s (<[x + y * vPlaneStride := yuvToUNorm ChanV avgV]> (vPlane s)).

(** Lines 112-203: one block. *)
Definition convertBlock (imageY imageX : nat) (s : ConvState) : ConvState :=
  let blockWidth := if bgraImage.(BitmapData.width) <=? imageX + 1 then 1 else 2 in
  let blockHeight := if bgraImage.(BitmapData.height) <=? imageY + 1 then 1 else 2 in
  let s :=
    for_range blockHeight 1 (fun blockY =>
      for_range blockWidth 1 (convertPixel imageX imageY blockY)) s in
  if YUVChromaSubsampling_eqb yuvFormat Subsampling420 then
    subsample420 imageX imageY blockWidth blockHeight s
  else if YUVChromaSubsampling_eqb yuvFormat Subsampling422 then
    for_range blockHeight 1 (subsample422Row imageX imageY blockWidth) s
  else s.

(** Lines 108-205, from the memory [s]. *)
Definition ColorToYUV8_loops (s : ConvState) : ConvState :=
  for_range bgraImage.(BitmapData.height) 2 (fun imageY =>
    for_range bgraImage.(BitmapData.width) 2 (convertBlock imageY)) s.

End ColorToYUV8.

(** The contents of [yuvBlock] at its declaration are indeterminate in C++;
    [yuvBlock_init] stands for them, and no cell is read before it is
    written (see [ColorToYUV8_loops_init_irrelevant]). *)
Definition yuvBlock_init : YUVBlockArray :=
  let z := YUVBlock.mk F32.zero F32.zero F32.zero in mkBlocks z z z z.

(** [ColorToYUV8]: the planes [(yPlane, uPlane, vPlane)] after the call. *)
Definition ColorToYUV8 {ColorConversionInfo : Type}
    (GetYUVCoefficiants : ColorConversionInfo -> YUVCoefficiants.t)
    (bgraImage : BitmapData.t) (colorInfo : ColorConversionInfo)
    (yuvFormat : YUVChromaSubsampling)
    (yPlane0 : list Z) (yPlaneStride : nat)
    (uPlane0 : list Z) (uPlaneStride : nat)
    (vPlane0 : list Z) (vPlaneStride : nat) : list Z * list Z * list Z :=
  let s := ColorToYUV8_loops ColorConversionInfo GetYUVCoefficiants bgraImage colorInfo
             yuvFormat yPlaneStride uPlaneStride vPlaneStride
             (mkConv yuvBlock_init yPlane0 uPlane0 vPlane0) in
  (yPlane s, uPlane s, vPlane s).

(** [AlphaToY8]: the pointers [src] and [dst] are offsets into the raster and
    the plane, advanced by the inner loop. *)
Record AlphaCursor := mkCursor { src : nat; dst : nat; dstPlane : list Z }.

Definition AlphaToY8 (bgraImage : BitmapData.t) (yPlane0 : list Z) (yPlaneStride : nat)
    : list Z :=
  for_range bgraImage.(BitmapData.height) 1 (fun y plane =>
    let c0 := mkCursor (y * bgraImage.(BitmapData.stride)) (y * yPlaneStride) plane in
    dstPlane
      (for_range bgraImage.(BitmapData.width) 1 (fun _ c =>
         mkCursor (src c + ColorBgra.size) (dst c + 1)
           (<[dst c := ColorBgra.a (ColorBgra_at bgraImage.(BitmapData.scan0) (src c))]>
              (dstPlane c))) c0)) yPlane0.

(** ** The codec's image object ([aom/aom_image.h], libaom) *)

Inductive aom_img_fmt := AOM_IMG_FMT_I420 | AOM_IMG_FMT_I422 | AOM_IMG_FMT_I444.
Inductive aom_color_range := AOM_CR_STUDIO_RANGE | AOM_CR_FULL_RANGE.

Module aom_image.
(** The fields the converters touch; [plane_Y] is [planes[AOM_PLANE_Y]] and
    [stride_Y] is [stride[AOM_PLANE_Y]], likewise for U and V. *)
Record t := mk {
  fmt : aom_img_fmt;
  d_w : nat;
  d_h : nat;
  range : aom_color_range;
  monochrome : Z;
  plane_Y : list Z; plane_U : list Z; plane_V : list Z;
  stride_Y : nat; stride_U : nat; stride_V : nat }.

Definition set_range (i : t) (r : aom_color_range) : t :=
  mk (fmt i) (d_w i) (d_h i) r (monochrome i)
     (plane_Y i) (plane_U i) (plane_V i) (stride_Y i) (stride_U i) (stride_V i).
Definition set_monochrome (i : t) (m : Z) : t :=
  mk (fmt i) (d_w i) (d_h i) (range i) m
     (plane_Y i) (plane_U i) (plane_V i) (stride_Y i) (stride_U i) (stride_V i).
Definition set_planes (i : t) (py pu pv : list Z) : t :=
  mk (fmt i) (d_w i) (d_h i) (range i) (monochrome i)
     py pu pv (stride_Y i) (stride_U i) (stride_V i).
End aom_image.

(** ** The world outside the converters *)

Inductive EncoderStatus :=
  | NullParameter
  | OutOfMemory
  | UnknownYUVFormat
  | UserCancelled
  | StatusOther (raw : Z).

Module EncoderOptions.
(** The field the code reads; the tuning parameters only travel to the
    encoder. *)
Record t := mk { yuvFormat : YUVChromaSubsampling; tuning : list Z }.
End EncoderOptions.

Module ProgressContext.
(** [progressCallback] answers [false] to cancel.  The counters are taken
    as [uint32_t]. *)
Record t := mk {
  progressCallback : Z -> Z -> bool;
  progressDone : Z;
  progressTotal : Z }.
End ProgressContext.

(** What a collaborator can observe of a call. *)
Inductive Event :=
  | EvProgress (done total : Z) (answer : bool)
  | EvImgAlloc (fmt : aom_img_fmt) (d_w d_h align : nat) (ok : bool)
  | EvImgFree (img : aom_image.t)
  | EvCompress (color : aom_image.t) (alpha : option aom_image.t).

(** [progress] is the object a non-null [progressContext] points to.
    [aom_allocs] are the outcomes of the coming [aom_img_alloc] calls, in
    order: [None] for a failed allocation, [Some img] for an image whose
    planes hold whatever the allocator left in them; once the list is used up
    the allocator fails.  [trace] is in call order. *)
Record World := mkWorld {
  progress : ProgressContext.t;
  aom_allocs : list (option aom_image.t);
  trace : list Event }.

Definition M (A : Type) : Type := World -> A * World.
Definition ret {A : Type} (a : A) : M A := fun w => (a, w).
Definition bind {A B : Type} (c : M A) (k : A -> M B) : M B :=
  fun w => let (a, w') := c w in k a w'.

Declare Scope world_scope.
Delimit Scope world_scope with world.
Notation "x <- c ;; k" := (bind c (fun x => k))
  (at level 100, c at next level, right associativity) : world_scope.
Notation "c ;; k" := (bind c (fun _ => k))
  (at level 100, right associativity) : world_scope.
Local Open Scope world_scope.

Definition emit (e : Event) : M unit :=
  fun w => (tt, mkWorld (progress w) (aom_allocs w) (trace w ++ [e])).

(** [aom_img_alloc(nullptr, fmt, d_w, d_h, align)] *)
Definition aom_img_alloc (fmt : aom_img_fmt) (d_w d_h align : nat)
    : M (option aom_image.t) :=
  fun w =>
    match aom_allocs w with
    | [] => emit (EvImgAlloc fmt d_w d_h align false) ;; ret None
    | r :: rest =>
        fun _ => (r, mkWorld (progress w) rest
                      (trace w ++ [EvImgAlloc fmt d_w d_h align (bool_decide (is_Some r))]))
    end w.

(** [aom_img_free(img)] *)
Definition aom_img_free (img : aom_image.t) : M unit := emit (EvImgFree img).

(** [progressContext->progressCallback(++progressContext->progressDone,
    progressContext->progressTotal)] *)
Definition report_progress : M bool :=
  fun w =>
    let ctx := progress w in
    let done := ((ProgressContext.progressDone ctx + 1) mod 2 ^ 32)%Z in
    let total := ProgressContext.progressTotal ctx in
    let answer := ProgressContext.progressCallback ctx done total in
    (answer,
     mkWorld (ProgressContext.mk (ProgressContext.progressCallback ctx) done total)
             (aom_allocs w)
             (trace w ++ [EvProgress done total answer])).

(** ** [ChromaSubsampling.cpp], the exported converters *)

Definition ConvertColorToAOMImage {ColorConversionInfo : Type}
    (GetYUVCoefficiants : ColorConversionInfo -> YUVCoefficiants.t)
    (bgraImage : BitmapData.t) (colorInfo : ColorConversionInfo)
    (yuvFormat : YUVChromaSubsampling) (aomFormat : aom_img_fmt)
    : M (option aom_image.t) :=
  aomImage <- aom_img_alloc aomFormat bgraImage.(BitmapData.width)
                bgraImage.(BitmapData.height) 16 ;;
  match aomImage with
  | None => ret None
  | Some aomImage =>
      let aomImage := aom_image.set_range aomImage AOM_CR_FULL_RANGE in
      let '(py, pu, pv) :=
        ColorToYUV8 GetYUVCoefficiants bgraImage colorInfo yuvFormat
          (aom_image.plane_Y aomImage) (aom_image.stride_Y aomImage)
          (aom_image.plane_U aomImage) (aom_image.stride_U aomImage)
          (aom_image.plane_V aomImage) (aom_image.stride_V aomImage) in
      ret (Some (aom_image.set_planes aomImage py pu pv))
  end.

(** Lines 280-287: the chroma rows zeroed by [ConvertAlphaToAOMImage]. *)
Definition zeroChroma (bgraImage : BitmapData.t) (aomImage : aom_image.t)
    : aom_image.t :=
  let uvHeight := bgraImage.(BitmapData.height) / 2 in
  for_range uvHeight 1 (fun y img =>
    let pu := memset_zero (aom_image.plane_U img) (y * aom_image.stride_U img)
                (aom_image.stride_U img) in
    let pv := memset_zero (aom_image.plane_V img) (y * aom_image.stride_V img)
                (aom_image.stride_V img) in
    aom_image.set_planes img (aom_image.plane_Y img) pu pv) aomImage.

Definition ConvertAlphaToAOMImage (bgraImage : BitmapData.t)
    : M (option aom_image.t) :=
  let aomFormat := AOM_IMG_FMT_I420 in
  aomImage <- aom_img_alloc aomFormat bgraImage.(BitmapData.width)
                bgraImage.(BitmapData.height) 16 ;;
  match aomImage with
  | None => ret None
  | Some aomImage =>
      let aomImage := aom_image.set_range aomImage AOM_CR_FULL_RANGE in
      let aomImage := aom_image.set_monochrome aomImage 1 in
      let aomImage :=
        aom_image.set_planes aomImage
          (AlphaToY8 bgraImage (aom_image.plane_Y aomImage) (aom_image.stride_Y aomImage))
          (aom_image.plane_U aomImage) (aom_image.plane_V aomImage) in
      ret (Some (zeroChroma bgraImage aomImage))
  end.

(** ** [AvifNative.cpp] *)

(** [details::aom_image_deleter::operator()] *)
Definition aom_image_deleter (img : option aom_image.t) : M unit :=
  match img with
  | Some i => aom_img_free i
  | None => ret tt
  end.

(** [ScopedAOMImage] is a [std::unique_ptr] with that deleter: leaving the
    scope of a non-null one runs the deleter, after the value of the
    [return] statement has been computed. *)
Definition ScopedAOMImage_scope {A : Type} (p : option aom_image.t) (body : M A)
    : M A :=
  r <- body ;;
  match p with
  | Some _ => aom_image_deleter p
  | None => ret tt
  end ;;
  ret r.

(** A pointer argument that is only tested against null and handed on. *)
Definition pointer : Type := option nat.

(** The [switch] of lines 54-69; [None] is the [default] arm. *)
Definition aomFormat_of (yuvFormat : YUVChromaSubsampling) : option aom_img_fmt :=
  match yuvFormat with
  | Subsampling400 | Subsampling420 => Some AOM_IMG_FMT_I420
  | Subsampling422 => Some AOM_IMG_FMT_I422
  | Subsampling444 | IdentityMatrix => Some AOM_IMG_FMT_I444
  | SubsamplingOther _ => None
  end.

Section Compression.

Variable ColorConversionInfo : Type.
Variable GetYUVCoefficiants : ColorConversionInfo -> YUVCoefficiants.t.

(** [AV1Encoder.h] is not among the sources: the encoder is a parameter,
    and each call of it is recorded. *)
Variable CompressAOMImages :
  aom_image.t -> option aom_image.t -> EncoderOptions.t ->
  pointer -> pointer -> pointer -> M EncoderStatus.

Definition call_CompressAOMImages (color : aom_image.t) (alpha : option aom_image.t)
    (encodeOptions : EncoderOptions.t)
    (outputAllocator compressedColorImage compressedAlphaImage : pointer)
    : M EncoderStatus :=
  emit (EvCompress color alpha) ;;
  CompressAOMImages color alpha encodeOptions
    outputAllocator compressedColorImage compressedAlphaImage.

Definition CompressWithAOM (image : BitmapData.t) (encodeOptions : EncoderOptions.t)
    (colorInfo : ColorConversionInfo)
    (outputAllocator compressedColorImage compressedAlphaImage : pointer)
    : M EncoderStatus :=
  let yuvFormat := encodeOptions.(EncoderOptions.yuvFormat) in
  match aomFormat_of yuvFormat with
  | None => ret UnknownYUVFormat
  | Some aomFormat =>
      color <- ConvertColorToAOMImage GetYUVCoefficiants image colorInfo
                 yuvFormat aomFormat ;;
      ScopedAOMImage_scope color
        match color with
        | None => ret OutOfMemory
        | Some colorImg =>
            alpha <- match compressedAlphaImage with
                     | Some _ => ConvertAlphaToAOMImage image
                     | None => ret None
                     end ;;
            ScopedAOMImage_scope alpha
              match compressedAlphaImage, alpha with
              | Some _, None => ret OutOfMemory
              | _, _ =>
                  call_CompressAOMImages colorImg alpha encodeOptions
                    outputAllocator compressedColorImage compressedAlphaImage
              end
        end
  end.

(** [progressContext] is [Some tt] for a pointer to the [progress] object
    of the world, [None] for null. *)
Definition CompressImage (image : option BitmapData.t)
    (encodeOptions : option EncoderOptions.t)
    (progressContext : option unit)
    (colorInfo : ColorConversionInfo)
    (outputAllocator compressedColorImage compressedAlphaImage : pointer)
    : M EncoderStatus :=
  match image, encodeOptions, progressContext, outputAllocator, compressedColorImage with
  | Some image, Some encodeOptions, Some _, Some _, Some _ =>
      continue <- report_progress ;;
      if negb continue then ret UserCancelled
      else
        CompressWithAOM image encodeOptions colorInfo
          outputAllocator compressedColorImage compressedAlphaImage
  | _, _, _, _, _ => ret NullParameter
  end.

End Compression.

(** ** Definitions used to state the properties *)

(** The values the loop variable of [for_loop] takes, in order. *)
Fixpoint loop_indices (fuel i bound step : nat) : list nat :=
  match fuel with
  | O => []
  | S fuel' =>
      if i <? bound then i :: loop_indices fuel' (i + step) bound step else []
  end.

(** A run of byte stores [p[i] = v], first to last. *)
Definition apply_writes (p : list Z) (ws : list (nat * Z)) : list Z :=
  foldl (fun p w => <[w.1 := w.2]> p) p ws.

(** The Y, U and V values of the pixel at [(x, y)], before quantization. *)
Definition pixelYUV (coef : YUVCoefficiants.t) (img : BitmapData.t) (p : nat * nat)
    : YUVBlock.t :=
  pixelToYUV coef (pixel_at img p.1 p.2).

(** The pixels [(x, y)] of the raster that lie in the 2x2 block with corner
    [(X, Y)], row by row: four of them, or two or one at an odd edge. *)
Definition blockSamples (img : BitmapData.t) (X Y : nat) : list (nat * nat) :=
  List.filter
    (fun p => (p.1 <? BitmapData.width img) && (p.2 <? BitmapData.height img))
    [(X, Y); (X + 1, Y); (X, Y + 1); (X + 1, Y + 1)].

(** The pixels of row [y] in the columns [X] and [X + 1]: two, or one at an
    odd edge. *)
Definition rowSamples (img : BitmapData.t) (X y : nat) : list (nat * nat) :=
  List.filter (fun p => p.1 <? BitmapData.width img) [(X, y); (X + 1, y)].

(** The rows of the raster among [Y] and [Y + 1]. *)
Definition blockRows (img : BitmapData.t) (Y : nat) : list nat :=
  List.filter (fun y => y <? BitmapData.height img) [Y; Y + 1].

(** The float sum of the samples, from 0 and in order, over their number. *)
Definition average (samples : list float) : float :=
  F32.div (foldl F32.add F32.zero samples) (F32.of_nat (length samples)).

(** Two states with the same block array and luma plane. *)
Definition same_luma (s1 s2 : ConvState) : Prop :=
  yuvBlock s1 = yuvBlock s2 /\ yPlane s1 = yPlane s2.

(** Two states with the same three planes. *)
Definition same_planes (s1 s2 : ConvState) : Prop :=
  yPlane s1 = yPlane s2 /\ uPlane s1 = uPlane s2 /\ vPlane s1 = vPlane s2.

(** Two states with the same chroma planes. *)
Definition same_chroma (s1 s2 : ConvState) : Prop :=
  uPlane s1 = uPlane s2 /\ vPlane s1 = vPlane s2.

(** Two rasters of the same size with the same blue, green and red bytes
    at every pixel. *)
Definition same_colors (img1 img2 : BitmapData.t) : Prop :=
  BitmapData.width img1 = BitmapData.width img2 /\
  BitmapData.height img1 = BitmapData.height img2 /\
  forall x y, x < BitmapData.width img1 -> y < BitmapData.height img1 ->
    ColorBgra.b (pixel_at img1 x y) = ColorBgra.b (pixel_at img2 x y) /\
    ColorBgra.g (pixel_at img1 x y) = ColorBgra.g (pixel_at img2 x y) /\
    ColorBgra.r (pixel_at img1 x y) = ColorBgra.r (pixel_at img2 x y).

(** Two rasters of the same size with the same alpha byte at every pixel. *)
Definition same_alpha (img1 img2 : BitmapData.t) : Prop :=
  BitmapData.width img1 = BitmapData.width img2 /\
  BitmapData.height img1 = BitmapData.height img2 /\
  forall x y, x < BitmapData.width img1 -> y < BitmapData.height img1 ->
    ColorBgra.a (pixel_at img1 x y) = ColorBgra.a (pixel_at img2 x y).

(** The images handed out by [aom_img_alloc], and those given back to
    [aom_img_free], in a trace. *)
Definition img_allocations (t : list Event) : nat :=
  length (List.filter (fun e => match e with EvImgAlloc _ _ _ _ true => true | _ => false end) t).

Definition img_frees (t : list Event) : nat :=
  length (List.filter (fun e => match e with EvImgFree _ => true | _ => false end) t).

(** The world after the progress report of [CompressImage], and the answer
    of the callback. *)
Definition progress_done_next (world : World) : Z :=
  ((ProgressContext.progressDone (progress world) + 1) mod 2 ^ 32)%Z.

Definition progress_answer (world : World) : bool :=
  ProgressContext.progressCallback (progress world) (progress_done_next world)
    (ProgressContext.progressTotal (progress world)).

Definition after_progress (world : World) : World :=
  mkWorld
    (ProgressContext.mk (ProgressContext.progressCallback (progress world))
       (progress_done_next world) (ProgressContext.progressTotal (progress world)))
    (aom_allocs world)
    (trace world ++ [EvProgress (progress_done_next world)
                       (ProgressContext.progressTotal (progress world))
                       (progress_answer world)]).

(** An encoder that neither takes images from the allocator nor gives any
    back. *)
Definition encoder_keeps_images
    (CompressAOMImages :
       aom_image.t -> option aom_image.t -> EncoderOptions.t ->
       pointer -> pointer -> pointer -> M EncoderStatus) : Prop :=
  forall color alpha options p1 p2 p3 world,
    img_allocations (trace (CompressAOMImages color alpha options p1 p2 p3 world).2) =
      img_allocations (trace world) /\
    img_frees (trace (CompressAOMImages color alpha options p1 p2 p3 world).2) =
      img_frees (trace world).

(** Between two worlds, as many images were given back as were handed
    out. *)
Definition images_balanced (before after : World) : Prop :=
  img_allocations (trace after) + img_frees (trace before) =
  img_frees (trace after) + img_allocations (trace before).

(** The allocator has nothing left, or answers null. *)
Definition next_alloc_fails (world : World) : Prop :=
  aom_allocs world = [] \/ exists rest, aom_allocs world = None :: rest.

(** The world after one more event. *)
Definition with_events (world : World) (allocs : list (option aom_image.t))
    (events : list Event) : World :=
  mkWorld (progress world) allocs (trace world ++ events).

(** ** Sample data *)

(** The BT.601 weights, rounded to binary32. *)
Definition bt601 : YUVCoefficiants.t :=
  YUVCoefficiants.mk (F32.div (F32.of_Z 299) (F32.of_Z 1000))
                     (F32.div (F32.of_Z 587) (F32.of_Z 1000))
                     (F32.div (F32.of_Z 114) (F32.of_Z 1000)).

Definition bt601_lookup (_ : unit) : YUVCoefficiants.t := bt601.

(** One opaque blue pixel. *)
Definition blue_pixel : BitmapData.t :=
  BitmapData.mk [255; 0; 0; 255]%Z 1 1 4.

(** A 3x3 raster, rows of 12 bytes, pixels in B, G, R, A order. *)
Definition raster_3x3 : BitmapData.t :=
  BitmapData.mk
    [255; 0; 0; 255;   0; 255; 0; 255;     0; 0; 255; 255;
     10; 20; 30; 40;   50; 60; 70; 80;     90; 100; 110; 120;
     1; 2; 3; 4;       5; 6; 7; 8;         200; 100; 50; 25]%Z
    3 3 12.

(** The same colors, every alpha byte changed. *)
Definition raster_3x3_other_alpha : BitmapData.t :=
  BitmapData.mk
    [255; 0; 0; 0;     0; 255; 0; 1;       0; 0; 255; 2;
     10; 20; 30; 3;    50; 60; 70; 4;      90; 100; 110; 5;
     1; 2; 3; 6;       5; 6; 7; 7;         200; 100; 50; 8]%Z
    3 3 12.

(** The same alpha bytes, every color byte changed. *)
Definition raster_3x3_other_colors : BitmapData.t :=
  BitmapData.mk
    [0; 9; 9; 255;     9; 0; 9; 255;       9; 9; 0; 255;
     11; 21; 31; 40;   51; 61; 71; 80;     91; 101; 111; 120;
     2; 3; 4; 4;       6; 7; 8; 8;         201; 101; 51; 25]%Z
    3 3 12.

(** A 2x3 raster, rows of 8 bytes. *)
Definition raster_2x3 : BitmapData.t :=
  BitmapData.mk
    [10; 20; 30; 255;   40; 50; 60; 128;
     70; 80; 90; 64;    15; 25; 35; 32;
     45; 55; 65; 16;    75; 85; 95; 0]%Z
    2 3 8.

(** What [aom_img_alloc] can return for a 2x3 image in 4:2:0: luma rows of
    16 bytes, two chroma rows of 8 bytes, every byte holding 205, standing
    for what the allocator left there. *)
Definition fresh_I420_2x3 : aom_image.t :=
  aom_image.mk AOM_IMG_FMT_I420 2 3 AOM_CR_STUDIO_RANGE 0
    (replicate 48 205%Z) (replicate 16 205%Z) (replicate 16 205%Z) 16 8 8.

(** The same for a 3x3 image in 4:4:4. *)
Definition fresh_I444_3x3 : aom_image.t :=
  aom_image.mk AOM_IMG_FMT_I444 3 3 AOM_CR_STUDIO_RANGE 0
    (replicate 48 205%Z) (replicate 48 205%Z) (replicate 48 205%Z) 16 16 16.

(** A host whose callback cancels once the first unit of work is announced,
    and one that never cancels. *)
Definition cancelling_host : ProgressContext.t :=
  ProgressContext.mk (fun done _ => (done <? 1)%Z) 0 2.

Definition patient_host : ProgressContext.t :=
  ProgressContext.mk (fun _ _ => true) 0 2.

Definition sample_world (host : ProgressContext.t) (allocs : list (option aom_image.t))
    : World :=
  mkWorld host allocs [].

(** An encoder that reports success (status 0). *)
Definition sample_encoder (_ : aom_image.t) (_ : option aom_image.t)
    (_ : EncoderOptions.t) (_ _ _ : pointer) : M EncoderStatus :=
  ret (StatusOther 0).

(** An encoder that fails (status 5) after recording nothing. *)
Definition failing_encoder (_ : aom_image.t) (_ : option aom_image.t)
    (_ : EncoderOptions.t) (_ _ _ : pointer) : M EncoderStatus :=
  ret (StatusOther 5).

(** * Binary32 facts *)

Lemma F32_canon_valid x : valid_binary F32.prec F32.emax (F32.canon x) = true.
Proof. unfold F32.canon. destruct (valid_binary _ _ x) eqn:E; done. Qed.

Lemma F32_canon_id x : valid_binary F32.prec F32.emax x = true -> F32.canon x = x.
Proof. unfold F32.canon. by intros ->. Qed.

Lemma binary_round_aux_exact s m e :
  bounded F32.prec F32.emax m e = true ->
  binary_round_aux F32.prec F32.emax s (Z.pos m) e loc_Exact = S754_finite s m e.
Proof.
  unfold bounded, canonical_mantissa.
  intros [Hc He]%andb_true_iff. apply Z.eqb_eq in Hc.
  unfold binary_round_aux, shr_fexp, Zdigits2. rewrite Hc, Z.sub_diag. simpl.
  rewrite Hc, Z.sub_diag. simpl. by rewrite He.
Qed.

Lemma binary_round_aux_exact_twice s m e :
  bounded F32.prec F32.emax m e = true ->
  binary_round_aux F32.prec F32.emax s (Z.pos m~0) (e - 1) loc_Exact = S754_finite s m e.
Proof.
  unfold bounded, canonical_mantissa.
  intros [Hc He]%andb_true_iff. apply Z.eqb_eq in Hc.
  unfold binary_round_aux, shr_fexp, Zdigits2. simpl digits2_pos.
  replace (Z.pos (Pos.succ (digits2_pos m)) + (e - 1))%Z
    with (Z.pos (digits2_pos m) + e)%Z by lia.
  rewrite Hc. replace (e - (e - 1))%Z with 1%Z by lia. simpl.
  replace (e - 1 + 1)%Z with e by lia.
  rewrite Hc, Z.sub_diag. simpl. by rewrite He.
Qed.

Lemma SFdiv_one_finite s m e :
  bounded F32.prec F32.emax m e = true ->
  SFdiv F32.prec F32.emax (S754_finite s m e) F32.one = S754_finite s m e.
Proof.
  intros Hb. generalize Hb.
  unfold bounded, canonical_mantissa, fexp, emin, F32.prec, F32.emax.
  intros [Hc He]%andb_true_iff.
  apply Z.eqb_eq in Hc. apply Z.leb_le in He.
  unfold SFdiv, F32.one, SFdiv_core_binary, fexp, emin, Zdigits2.
  change (digits2_pos 8388608) with 24%positive.
  set (d := Z.pos (digits2_pos m)) in *.
  assert (forall k, (0 <= k)%Z ->
            Z.div_eucl (Z.pos m * 2 ^ (23 + k)) (Z.pos 8388608) = (Z.pos m * 2 ^ k, 0)%Z)
    as Hdiv.
  { intros k Hk.
    pose proof (Z.div_eucl_eq (Z.pos m * 2 ^ (23 + k)) (Z.pos 8388608) ltac:(lia)) as Heq.
    pose proof (Z.mod_pos_bound (Z.pos m * 2 ^ (23 + k)) (Z.pos 8388608) ltac:(lia)) as Hm.
    unfold Z.modulo in Hm. rewrite Z.pow_add_r in * by lia.
    destruct (Z.div_eucl (Z.pos m * (2 ^ 23 * 2 ^ k)) (Z.pos 8388608)) as [q r].
    change (2 ^ 23)%Z with 8388608%Z in *. f_equal; nia. }
  rewrite xorb_false_r.
  destruct (Z.eq_dec (Z.max (d + e - 1 - 24) (3 - 128 - 24)) e) as [Hcase|Hcase].
  - replace (Z.min (Z.max (d + e - (24 + -23) - 24) (3 - 128 - 24)) (e - -23))%Z with e by lia.
    replace (e - -23 - e)%Z with 23%Z by lia.
    rewrite Z.shiftl_mul_pow2 by lia.
    change (2 ^ 23)%Z with (2 ^ (23 + 0))%Z.
    rewrite (Hdiv 0%Z) by lia. rewrite Z.mul_1_r.
    by apply binary_round_aux_exact.
  - replace (Z.min (Z.max (d + e - (24 + -23) - 24) (3 - 128 - 24)) (e - -23))%Z
      with (e - 1)%Z by lia.
    replace (e - -23 - (e - 1))%Z with 24%Z by lia.
    rewrite Z.shiftl_mul_pow2 by lia.
    change (2 ^ 24)%Z with (2 ^ (23 + 1))%Z.
    rewrite (Hdiv 1%Z) by lia.
    replace (Z.pos m * 2 ^ 1)%Z with (Z.pos m~0) by lia.
    by apply binary_round_aux_exact_twice.
Qed.

Lemma F32_div_one x :
  valid_binary F32.prec F32.emax x = true -> F32.div x F32.one = x.
Proof.
  intros Hx. unfold F32.div.
  destruct x as [s|s| |s m e]; try (by destruct s).
  - done.
  - rewrite SFdiv_one_finite by done. by apply F32_canon_id.
Qed.

Lemma F32_add_zero_l x :
  valid_binary F32.prec F32.emax x = true ->
  F32.add F32.zero x = match x with S754_zero _ => F32.zero | _ => x end.
Proof.
  intros Hx. unfold F32.add. destruct x as [s|s| |s m e]; try (by destruct s).
  - done.
  - simpl SFadd. by apply F32_canon_id.
Qed.

Lemma F32_div_valid x y : valid_binary F32.prec F32.emax (F32.div x y) = true.
Proof. apply F32_canon_valid. Qed.

(** Quantizing the average of a single sample is quantizing the sample. *)
Lemma yuvToUNorm_average_single chan u :
  valid_binary F32.prec F32.emax u = true ->
  yuvToUNorm chan (average [u]) = yuvToUNorm chan u.
Proof.
  intros Hu. unfold average. cbn [foldl length].
  change (F32.of_nat 1) with F32.one.
  rewrite F32_add_zero_l by done.
  destruct u as [s| | |]; [|by rewrite F32_div_one..].
  by destruct s, chan.
Qed.

(** * Loops *)

Lemma for_loop_enough_fuel {St : Type} (extra fuel i bound step : nat)
    (body : nat -> St -> St) (s : St) :
  0 < step -> bound <= i + fuel ->
  for_loop (fuel + extra) i bound step body s = for_loop fuel i bound step body s.
Proof.
  intros Hstep. revert i s.
  induction fuel as [|fuel IH]; intros i s Hfuel; simpl.
  - destruct extra as [|extra]; simpl; [done|].
    destruct (Nat.ltb_spec i bound); [lia | done].
  - destruct (Nat.ltb_spec i bound); [|done].
    apply IH. lia.
Qed.

(** [for_range] does not run out of fuel: more fuel gives the same state. *)
Lemma for_range_enough_fuel {St : Type} (extra bound step : nat)
    (body : nat -> St -> St) (s : St) :
  0 < step ->
  for_loop (bound + extra) 0 bound step body s = for_range bound step body s.
Proof. intros Hstep. by apply for_loop_enough_fuel. Qed.

(** Two loops over the same range whose bodies preserve a relation [R]
    end in related states. *)
Lemma for_loop_rel {S1 S2 : Type} (R : S1 -> S2 -> Prop) (fuel i bound step : nat)
    (body1 : nat -> S1 -> S1) (body2 : nat -> S2 -> S2) (s1 : S1) (s2 : S2) :
  (forall j t1 t2, j < bound -> R t1 t2 -> R (body1 j t1) (body2 j t2)) ->
  R s1 s2 ->
  R (for_loop fuel i bound step body1 s1) (for_loop fuel i bound step body2 s2).
Proof.
  intros Hbody. revert i s1 s2.
  induction fuel as [|fuel IH]; intros i s1 s2 HR; simpl; [done|].
  destruct (Nat.ltb_spec i bound); [|done].
  apply IH. by apply Hbody.
Qed.

Lemma for_range_rel {S1 S2 : Type} (R : S1 -> S2 -> Prop) (bound step : nat)
    (body1 : nat -> S1 -> S1) (body2 : nat -> S2 -> S2) (s1 : S1) (s2 : S2) :
  (forall j t1 t2, j < bound -> R t1 t2 -> R (body1 j t1) (body2 j t2)) ->
  R s1 s2 ->
  R (for_range bound step body1 s1) (for_range bound step body2 s2).
Proof. apply for_loop_rel. Qed.

(** A property kept by the body is kept by the loop. *)
Lemma for_range_inv {St : Type} (P : St -> Prop) (bound step : nat)
    (body : nat -> St -> St) (s : St) :
  (forall j t, j < bound -> P t -> P (body j t)) ->
  P s -> P (for_range bound step body s).
Proof.
  intros Hbody Hs.
  apply (for_range_rel (fun t _ => P t) bound step body body s s); auto.
Qed.

Lemma elem_of_loop_indices (fuel i bound step j : nat) :
  0 < step -> bound <= i + fuel ->
  j ∈ loop_indices fuel i bound step <->
  j < bound /\ exists k, j = i + k * step.
Proof.
  intros Hstep. revert i.
  induction fuel as [|fuel IH]; intros i Hfuel; simpl.
  - split; [by intros ?%elem_of_nil | intros [? (k & ->)]; lia].
  - destruct (Nat.ltb_spec i bound) as [Hi|Hi].
    + rewrite elem_of_cons, IH by lia. split.
      * intros [-> | [Hj (k & ->)]].
        -- split; [done | by exists 0].
        -- split; [done | exists (S k); lia].
      * intros [Hj (k & ->)]. destruct k as [|k]; [left; lia|].
        right. split; [done | exists k; lia].
    + split; [by intros ?%elem_of_nil | intros [? (k & ->)]; lia].
Qed.

(** A loop whose body, seen through [proj], is a run of stores, is itself
    the run of all these stores.  [J] is an invariant the body may rely
    on. *)
Lemma for_loop_writes {St : Type} (J : nat -> St -> Prop) (proj : St -> list Z)
    (writes : nat -> list (nat * Z)) (fuel i bound step : nat)
    (body : nat -> St -> St) (s : St) :
  (forall j t, j < bound -> J j t ->
     J (j + step) (body j t) /\
     proj (body j t) = apply_writes (proj t) (writes j)) ->
  J i s ->
  proj (for_loop fuel i bound step body s) =
  apply_writes (proj s) (loop_indices fuel i bound step ≫= writes).
Proof.
  intros Hbody. revert i s.
  induction fuel as [|fuel IH]; intros i s HJ; simpl; [done|].
  destruct (Nat.ltb_spec i bound) as [Hi|Hi]; [|done].
  destruct (Hbody i s Hi HJ) as [HJ' Hw].
  rewrite (IH _ _ HJ'), Hw. simpl.
  unfold apply_writes. by rewrite foldl_app.
Qed.

Lemma apply_writes_length (p : list Z) (ws : list (nat * Z)) :
  length (apply_writes p ws) = length p.
Proof.
  revert p. induction ws as [|w ws IH]; intros p; simpl; [done|].
  unfold apply_writes in *. simpl. by rewrite IH, length_insert.
Qed.

(** An index no store names keeps its byte. *)
Lemma apply_writes_untouched (p : list Z) (ws : list (nat * Z)) (k : nat) :
  (forall v, (k, v) ∉ ws) ->
  apply_writes p ws !! k = p !! k.
Proof.
  revert p. induction ws as [|[i x] ws IH]; intros p Hk; [done|].
  unfold apply_writes in *. simpl. rewrite IH.
  - apply list_lookup_insert_ne. intros ->. apply (Hk x). by left.
  - intros v Hv. apply (Hk v). by right.
Qed.

(** An index all of whose stores carry the same byte [v], and that is stored
    to at least once, ends up holding [v]. *)
Lemma apply_writes_lookup (p : list Z) (ws : list (nat * Z)) (k : nat) (v : Z) :
  k < length p ->
  (k, v) ∈ ws ->
  (forall v', (k, v') ∈ ws -> v' = v) ->
  apply_writes p ws !! k = Some v.
Proof.
  intros Hlen Hin Huniq.
  induction ws as [|[i x] ws IH] using rev_ind; [by apply elem_of_nil in Hin|].
  unfold apply_writes in *. rewrite foldl_app. simpl.
  destruct (decide (i = k)) as [->|Hne].
  - rewrite (Huniq x) by (apply elem_of_app; right; by left).
    apply list_lookup_insert_eq.
    fold (apply_writes p ws). by rewrite apply_writes_length.
  - rewrite list_lookup_insert_ne by done.
    apply IH.
    + apply elem_of_app in Hin as [Hin|Hin]; [done|].
      apply list_elem_of_singleton in Hin. congruence.
    + intros v' Hv'. apply Huniq. apply elem_of_app. by left.
Qed.

(** As [for_loop_rel], for a relation that follows the loop variable. *)
Lemma for_loop_rel_idx {S1 S2 : Type} (R : nat -> S1 -> S2 -> Prop)
    (fuel i bound step : nat)
    (body1 : nat -> S1 -> S1) (body2 : nat -> S2 -> S2) (s1 : S1) (s2 : S2) :
  (forall j t1 t2, j < bound -> R j t1 t2 -> R (j + step) (body1 j t1) (body2 j t2)) ->
  R i s1 s2 ->
  exists i', R i' (for_loop fuel i bound step body1 s1)
                  (for_loop fuel i bound step body2 s2).
Proof.
  intros Hbody. revert i s1 s2.
  induction fuel as [|fuel IH]; intros i s1 s2 HR; simpl; [by exists i|].
  destruct (Nat.ltb_spec i bound); [|by exists i].
  apply IH. by apply Hbody.
Qed.

(** * [ColorToYUV8]: what the result depends on *)

Section ColorToYUV8_facts.

Context {ColorConversionInfo : Type}.
Variable GetYUVCoefficiants : ColorConversionInfo -> YUVCoefficiants.t.
Variable colorInfo : ColorConversionInfo.

Lemma block_extent (n i blockI : nat) :
  i < n -> blockI < (if n <=? i + 1 then 1 else 2) -> i + blockI < n.
Proof. destruct (Nat.leb_spec n (i + 1)); lia. Qed.


Lemma convertPixel_same_luma img f1 f2 ys us1 vs1 us2 vs2 iX iY bY bX s1 s2 :
  same_luma s1 s2 ->
  same_luma
    (convertPixel _ GetYUVCoefficiants img colorInfo f1 ys us1 vs1 iX iY bY bX s1)
    (convertPixel _ GetYUVCoefficiants img colorInfo f2 ys us2 vs2 iX iY bY bX s2).
Proof.
  intros [Hb Hy]. unfold convertPixel, same_luma.
  destruct (YUVChromaSubsampling_eqb f1 _), (YUVChromaSubsampling_eqb f2 _);
    simpl; rewrite Hb, Hy; done.
Qed.

Lemma subsample420_same_luma us vs iX iY bw bh s :
  same_luma (subsample420 us vs iX iY bw bh s) s.
Proof. done. Qed.

Lemma subsample422Row_same_luma us vs iX iY bw bY s :
  same_luma (subsample422Row us vs iX iY bw bY s) s.
Proof. done. Qed.

Lemma same_luma_trans s1 s2 s3 : same_luma s1 s2 -> same_luma s2 s3 -> same_luma s1 s3.
Proof. intros [? ?] [? ?]. split; congruence. Qed.

Lemma same_luma_sym s1 s2 : same_luma s1 s2 -> same_luma s2 s1.
Proof. intros [? ?]. by split. Qed.

Lemma subsampling_same_luma f us vs iX iY bw bh s :
  same_luma
    (if YUVChromaSubsampling_eqb f Subsampling420 then subsample420 us vs iX iY bw bh s
     else if YUVChromaSubsampling_eqb f Subsampling422 then
       for_range bh 1 (subsample422Row us vs iX iY bw) s
     else s) s.
Proof.
  destruct (YUVChromaSubsampling_eqb f Subsampling420); [done|].
  destruct (YUVChromaSubsampling_eqb f Subsampling422); [|done].
  apply (for_range_inv (fun t => same_luma t s)); [|done].
  intros j t _ Ht. eapply same_luma_trans; [apply subsample422Row_same_luma | done].
Qed.

Lemma convertBlock_same_luma img f1 f2 ys us1 vs1 us2 vs2 iY iX s1 s2 :
  same_luma s1 s2 ->
  same_luma
    (convertBlock _ GetYUVCoefficiants img colorInfo f1 ys us1 vs1 iY iX s1)
    (convertBlock _ GetYUVCoefficiants img colorInfo f2 ys us2 vs2 iY iX s2).
Proof.
  intros H. unfold convertBlock.
  eapply same_luma_trans; [apply subsampling_same_luma|].
  eapply same_luma_trans; [|apply same_luma_sym, subsampling_same_luma].
  apply for_range_rel; [|done]. intros bY t1 t2 _ Ht.
  apply for_range_rel; [|done]. intros bX t1' t2' _ Ht'.
  by apply convertPixel_same_luma.
Qed.

Lemma ColorToYUV8_loops_same_luma img f1 f2 ys us1 vs1 us2 vs2 s1 s2 :
  same_luma s1 s2 ->
  same_luma
    (ColorToYUV8_loops _ GetYUVCoefficiants img colorInfo f1 ys us1 vs1 s1)
    (ColorToYUV8_loops _ GetYUVCoefficiants img colorInfo f2 ys us2 vs2 s2).
Proof.
  intros H. unfold ColorToYUV8_loops.
  apply for_range_rel; [|done]. intros iY t1 t2 _ Ht.
  apply for_range_rel; [|done]. intros iX t1' t2' _ Ht'.
  by apply convertBlock_same_luma.
Qed.


Lemma pixelToYUV_same_colors coef p1 p2 :
  ColorBgra.b p1 = ColorBgra.b p2 ->
  ColorBgra.g p1 = ColorBgra.g p2 ->
  ColorBgra.r p1 = ColorBgra.r p2 ->
  pixelToYUV coef p1 = pixelToYUV coef p2.
Proof. intros Hb Hg Hr. unfold pixelToYUV. by rewrite Hb, Hg, Hr. Qed.

Lemma ColorToYUV8_loops_same_colors img1 img2 f ys us vs s :
  same_colors img1 img2 ->
  ColorToYUV8_loops _ GetYUVCoefficiants img1 colorInfo f ys us vs s =
  ColorToYUV8_loops _ GetYUVCoefficiants img2 colorInfo f ys us vs s.
Proof.
  intros (Hw & Hh & Hpx). unfold ColorToYUV8_loops. rewrite <- Hw, <- Hh.
  apply (for_range_rel eq); [|done]. intros iY t1 ? HiY <-.
  apply (for_range_rel eq); [|done]. intros iX t2 ? HiX <-.
  unfold convertBlock. rewrite <- Hw, <- Hh.
  set (bw := if BitmapData.width img1 <=? iX + 1 then 1 else 2).
  set (bh := if BitmapData.height img1 <=? iY + 1 then 1 else 2).
  assert (for_range bh 1 (fun blockY =>
            for_range bw 1 (convertPixel _ GetYUVCoefficiants img1 colorInfo f
                              ys us vs iX iY blockY)) t2 =
          for_range bh 1 (fun blockY =>
            for_range bw 1 (convertPixel _ GetYUVCoefficiants img2 colorInfo f
                              ys us vs iX iY blockY)) t2) as ->; [|done].
  apply (for_range_rel eq); [|done]. intros bY t3 ? HbY <-.
  apply (for_range_rel eq); [|done]. intros bX t4 ? HbX <-.
  unfold convertPixel.
  destruct (Hpx (iX + bX) (iY + bY)) as (Hb & Hg & Hr);
    [by apply block_extent | by apply block_extent |].
  by rewrite (pixelToYUV_same_colors _ _ _ Hb Hg Hr).
Qed.


Lemma ColorToYUV8_loops_no_chroma img f ys us vs s :
  YUVChromaSubsampling_eqb f Subsampling444 = false ->
  YUVChromaSubsampling_eqb f Subsampling420 = false ->
  YUVChromaSubsampling_eqb f Subsampling422 = false ->
  same_chroma (ColorToYUV8_loops _ GetYUVCoefficiants img colorInfo f ys us vs s) s.
Proof.
  intros H444 H420 H422. unfold ColorToYUV8_loops.
  apply (for_range_inv (fun t => same_chroma t s)); [|done]. intros iY t1 _ Ht1.
  apply (for_range_inv (fun t => same_chroma t s)); [|done]. intros iX t2 _ Ht2.
  unfold convertBlock. rewrite H420, H422.
  apply (for_range_inv (fun t => same_chroma t s)); [|done]. intros bY t3 _ Ht3.
  apply (for_range_inv (fun t => same_chroma t s)); [|done]. intros bX t4 _ Ht4.
  unfold convertPixel. by rewrite H444.
Qed.

End ColorToYUV8_facts.

(** * [AlphaToY8]: what the result depends on *)


Lemma AlphaToY8_same_alpha img1 img2 yPlane0 yPlaneStride :
  same_alpha img1 img2 ->
  AlphaToY8 img1 yPlane0 yPlaneStride = AlphaToY8 img2 yPlane0 yPlaneStride.
Proof.
  intros (Hw & Hh & Hpx). unfold AlphaToY8. rewrite <- Hw, <- Hh.
  apply (for_range_rel eq); [|done]. intros y p ? Hy <-.
  unfold for_range.
  edestruct (for_loop_rel_idx
    (fun x c1 c2 =>
       src c1 = y * BitmapData.stride img1 + x * ColorBgra.size /\
       src c2 = y * BitmapData.stride img2 + x * ColorBgra.size /\
       dst c1 = dst c2 /\ dstPlane c1 = dstPlane c2)) as (x' & _ & _ & _ & Hp);
    [| | exact Hp].
  - intros x c1 c2 Hx (Hs1 & Hs2 & Hd & Hp). simpl.
    rewrite Hs1, Hs2, Hd, Hp. repeat split; try (unfold ColorBgra.size; lia).
    f_equal. apply (Hpx x y Hx Hy).
  - simpl. repeat split; lia.
Qed.

(** * [ColorToYUV8]: the stores of one block *)

Section Blocks.

Context {ColorConversionInfo : Type}.
Variable GetYUVCoefficiants : ColorConversionInfo -> YUVCoefficiants.t.
Variable colorInfo : ColorConversionInfo.
Variable img : BitmapData.t.
Variables ys us vs : nat.

Let coef := GetYUVCoefficiants colorInfo.
Let chromaU (p : nat * nat) : float := YUVBlock.u (pixelYUV coef img p).
Let chromaV (p : nat * nat) : float := YUVBlock.v (pixelYUV coef img p).

Lemma yuvBlock_get_set arr i j x : yuvBlock_get (yuvBlock_set arr i j x) i j = x.
Proof. by destruct i, j. Qed.

Lemma convertPixel_yuvBlock f X Y bY bX s :
  yuvBlock (convertPixel _ GetYUVCoefficiants img colorInfo f ys us vs X Y bY bX s) =
  yuvBlock_set (yuvBlock s) bX bY (pixelYUV coef img (X + bX, Y + bY)).
Proof. unfold convertPixel. by destruct (YUVChromaSubsampling_eqb f _). Qed.

Lemma convertPixel_yPlane f X Y bY bX s :
  yPlane (convertPixel _ GetYUVCoefficiants img colorInfo f ys us vs X Y bY bX s) =
  <[X + bX + (Y + bY) * ys :=
      yuvToUNorm ChanY (YUVBlock.y (pixelYUV coef img (X + bX, Y + bY)))]> (yPlane s).
Proof.
  unfold convertPixel.
  destruct (YUVChromaSubsampling_eqb f _); simpl; by rewrite yuvBlock_get_set.
Qed.

Lemma convertPixel_chroma f X Y bY bX s :
  YUVChromaSubsampling_eqb f Subsampling444 = false ->
  same_chroma (convertPixel _ GetYUVCoefficiants img colorInfo f ys us vs X Y bY bX s) s.
Proof. intros Hf. unfold convertPixel. by rewrite Hf. Qed.

Lemma convertPixel_444_uPlane X Y bY bX s :
  uPlane (convertPixel _ GetYUVCoefficiants img colorInfo Subsampling444 ys us vs
            X Y bY bX s) =
  <[X + bX + (Y + bY) * us := yuvToUNorm ChanU (chromaU (X + bX, Y + bY))]> (uPlane s).
Proof. unfold convertPixel. simpl. by rewrite yuvBlock_get_set. Qed.

Lemma convertPixel_444_vPlane X Y bY bX s :
  vPlane (convertPixel _ GetYUVCoefficiants img colorInfo Subsampling444 ys us vs
            X Y bY bX s) =
  <[X + bX + (Y + bY) * vs := yuvToUNorm ChanV (chromaV (X + bX, Y + bY))]> (vPlane s).
Proof. unfold convertPixel. simpl. by rewrite yuvBlock_get_set. Qed.

(** The four shapes of a block. *)
Lemma block_cases X Y :
  X < BitmapData.width img -> Y < BitmapData.height img ->
  let w := BitmapData.width img in
  let h := BitmapData.height img in
  ((w <=? X + 1) = true /\ (X + 1 <? w) = false \/
   (w <=? X + 1) = false /\ (X + 1 <? w) = true) /\
  ((h <=? Y + 1) = true /\ (Y + 1 <? h) = false \/
   (h <=? Y + 1) = false /\ (Y + 1 <? h) = true) /\
  (X <? w) = true /\ (Y <? h) = true.
Proof.
  intros HX HY w h. subst w h.
  destruct (Nat.leb_spec (BitmapData.width img) (X + 1)),
           (Nat.ltb_spec (X + 1) (BitmapData.width img)),
           (Nat.leb_spec (BitmapData.height img) (Y + 1)),
           (Nat.ltb_spec (Y + 1) (BitmapData.height img)),
           (Nat.ltb_spec X (BitmapData.width img)),
           (Nat.ltb_spec Y (BitmapData.height img)); try lia; auto.
Qed.

Ltac block_shapes HX HY :=
  destruct (block_cases _ _ HX HY) as ([[-> ->]|[-> ->]] & [[-> ->]|[-> ->]] & -> & ->).

Ltac run_block :=
  unfold for_range;
  cbn [for_loop Nat.ltb Nat.leb Nat.add andb List.filter map foldl length fst snd
       apply_writes];
  rewrite ?convertPixel_yuvBlock, ?convertPixel_yPlane;
  cbn [yuvBlock yPlane uPlane vPlane set_uPlane set_vPlane addSample
       yuvBlock_get yuvBlock_set blk00 blk01 blk10 blk11 fst snd Nat.mul Nat.add];
  rewrite ?Nat.add_0_r.

(** Luma: one store per pixel of the block, in every mode. *)
Lemma convertBlock_yPlane f X Y s :
  X < BitmapData.width img -> Y < BitmapData.height img ->
  yPlane (convertBlock _ GetYUVCoefficiants img colorInfo f ys us vs Y X s) =
  apply_writes (yPlane s)
    (map (fun p => (p.1 + p.2 * ys, yuvToUNorm ChanY (YUVBlock.y (pixelYUV coef img p))))
         (blockSamples img X Y)).
Proof.
  intros HX HY.
  unfold convertBlock.
  match goal with
  | |- yPlane (if _ then subsample420 _ _ _ _ ?bw ?bh ?t else _) = _ =>
      destruct (subsampling_same_luma f us vs X Y bw bh t) as [_ ->]
  end.
  unfold blockSamples. cbn [fst snd List.filter].
  block_shapes HX HY.
  all: run_block; reflexivity.
Qed.

(** Chroma under 4:2:0: one store per block, of the average over the
    pixels the block has. *)
Lemma convertBlock_420_chroma X Y s :
  X < BitmapData.width img -> Y < BitmapData.height img ->
  let s' := convertBlock _ GetYUVCoefficiants img colorInfo Subsampling420 ys us vs Y X s in
  uPlane s' =
    apply_writes (uPlane s)
      [(Nat.shiftr X 1 + Nat.shiftr Y 1 * us,
        yuvToUNorm ChanU (average (map chromaU (blockSamples img X Y))))] /\
  vPlane s' =
    apply_writes (vPlane s)
      [(Nat.shiftr X 1 + Nat.shiftr Y 1 * vs,
        yuvToUNorm ChanV (average (map chromaV (blockSamples img X Y))))].
Proof.
  intros HX HY. unfold convertBlock, blockSamples, average, subsample420, chromaU, chromaV.
  cbn [fst snd List.filter YUVChromaSubsampling_eqb].
  block_shapes HX HY.
  all: run_block.
  all: repeat match goal with
       | |- context [uPlane (convertPixel ?a ?b ?c ?d ?f ?e1 ?e2 ?e3 ?x ?y ?i ?j ?t)] =>
           destruct (convertPixel_chroma f x y i j t eq_refl) as [-> _]
       | |- context [vPlane (convertPixel ?a ?b ?c ?d ?f ?e1 ?e2 ?e3 ?x ?y ?i ?j ?t)] =>
           destruct (convertPixel_chroma f x y i j t eq_refl) as [_ ->]
       end.
  all: split; reflexivity.
Qed.

(** Chroma under 4:2:2: one store per row of the block, of the average over
    the pixels the row has. *)
Lemma convertBlock_422_chroma X Y s :
  X < BitmapData.width img -> Y < BitmapData.height img ->
  let s' := convertBlock _ GetYUVCoefficiants img colorInfo Subsampling422 ys us vs Y X s in
  uPlane s' =
    apply_writes (uPlane s)
      (map (fun y => (Nat.shiftr X 1 + y * us,
                      yuvToUNorm ChanU (average (map chromaU (rowSamples img X y)))))
           (blockRows img Y)) /\
  vPlane s' =
    apply_writes (vPlane s)
      (map (fun y => (Nat.shiftr X 1 + y * vs,
                      yuvToUNorm ChanV (average (map chromaV (rowSamples img X y)))))
           (blockRows img Y)).
Proof.
  intros HX HY.
  unfold convertBlock, blockRows, rowSamples, average, chromaU, chromaV.
  cbn [fst snd List.filter YUVChromaSubsampling_eqb].
  block_shapes HX HY.
  all: run_block; unfold subsample422Row; do 2 run_block.
  all: repeat match goal with
       | |- context [uPlane (convertPixel ?a ?b ?c ?d ?f ?e1 ?e2 ?e3 ?x ?y ?i ?j ?t)] =>
           destruct (convertPixel_chroma f x y i j t eq_refl) as [-> _]
       | |- context [vPlane (convertPixel ?a ?b ?c ?d ?f ?e1 ?e2 ?e3 ?x ?y ?i ?j ?t)] =>
           destruct (convertPixel_chroma f x y i j t eq_refl) as [_ ->]
       end.
  all: split; reflexivity.
Qed.

(** Chroma under 4:4:4: one store per pixel of the block. *)
Lemma convertBlock_444_chroma X Y s :
  X < BitmapData.width img -> Y < BitmapData.height img ->
  let s' := convertBlock _ GetYUVCoefficiants img colorInfo Subsampling444 ys us vs Y X s in
  uPlane s' =
    apply_writes (uPlane s)
      (map (fun p => (p.1 + p.2 * us, yuvToUNorm ChanU (chromaU p)))
           (blockSamples img X Y)) /\
  vPlane s' =
    apply_writes (vPlane s)
      (map (fun p => (p.1 + p.2 * vs, yuvToUNorm ChanV (chromaV p)))
           (blockSamples img X Y)).
Proof.
  intros HX HY. unfold convertBlock, blockSamples.
  cbn [fst snd List.filter YUVChromaSubsampling_eqb].
  block_shapes HX HY.
  all: run_block; rewrite ?convertPixel_444_uPlane, ?convertPixel_444_vPlane;
       rewrite ?Nat.add_0_r.
  all: split; reflexivity.
Qed.

(** In the other modes a block stores no chroma. *)
Lemma convertBlock_no_chroma f X Y s :
  YUVChromaSubsampling_eqb f Subsampling444 = false ->
  YUVChromaSubsampling_eqb f Subsampling420 = false ->
  YUVChromaSubsampling_eqb f Subsampling422 = false ->
  same_chroma (convertBlock _ GetYUVCoefficiants img colorInfo f ys us vs Y X s) s.
Proof.
  intros H444 H420 H422. unfold convertBlock. rewrite H420, H422.
  apply (for_range_inv (fun t => same_chroma t s)); [|done]. intros bY t3 _ Ht3.
  apply (for_range_inv (fun t => same_chroma t s)); [|done]. intros bX t4 _ Ht4.
  unfold convertPixel. by rewrite H444.
Qed.

(** The planes a block leaves depend on the planes it finds, not on what
    the block array held. *)
Lemma convertBlock_same_planes f X Y s1 s2 :
  X < BitmapData.width img -> Y < BitmapData.height img ->
  same_planes s1 s2 ->
  same_planes (convertBlock _ GetYUVCoefficiants img colorInfo f ys us vs Y X s1)
              (convertBlock _ GetYUVCoefficiants img colorInfo f ys us vs Y X s2).
Proof.
  intros HX HY (Hy & Hu & Hv). split.
  { by rewrite !convertBlock_yPlane, Hy. }
  destruct (YUVChromaSubsampling_eqb f Subsampling444) eqn:H444;
    [destruct f; try discriminate H444;
     destruct (convertBlock_444_chroma X Y s1 HX HY) as [-> ->];
     destruct (convertBlock_444_chroma X Y s2 HX HY) as [-> ->];
     by rewrite Hu, Hv|].
  destruct (YUVChromaSubsampling_eqb f Subsampling420) eqn:H420;
    [destruct f; try discriminate H420;
     destruct (convertBlock_420_chroma X Y s1 HX HY) as [-> ->];
     destruct (convertBlock_420_chroma X Y s2 HX HY) as [-> ->];
     by rewrite Hu, Hv|].
  destruct (YUVChromaSubsampling_eqb f Subsampling422) eqn:H422;
    [destruct f; try discriminate H422;
     destruct (convertBlock_422_chroma X Y s1 HX HY) as [-> ->];
     destruct (convertBlock_422_chroma X Y s2 HX HY) as [-> ->];
     by rewrite Hu, Hv|].
  destruct (convertBlock_no_chroma f X Y s1 H444 H420 H422) as [-> ->].
  destruct (convertBlock_no_chroma f X Y s2 H444 H420 H422) as [-> ->].
  done.
Qed.

(** Hence the planes [ColorToYUV8] returns do not depend on the
    indeterminate first contents of [yuvBlock]. *)
Lemma ColorToYUV8_loops_init_irrelevant f arr1 arr2 yPlane0 uPlane0 vPlane0 :
  same_planes
    (ColorToYUV8_loops _ GetYUVCoefficiants img colorInfo f ys us vs
       (mkConv arr1 yPlane0 uPlane0 vPlane0))
    (ColorToYUV8_loops _ GetYUVCoefficiants img colorInfo f ys us vs
       (mkConv arr2 yPlane0 uPlane0 vPlane0)).
Proof.
  unfold ColorToYUV8_loops.
  apply for_range_rel; [|done]. intros Y t1 t2 HY Ht.
  apply for_range_rel; [|done]. intros X t1' t2' HX Ht'.
  by apply convertBlock_same_planes.
Qed.


(** The whole conversion, seen through one plane [proj], is the run of the
    stores of its blocks. *)
Lemma ColorToYUV8_loops_writes (proj : ConvState -> list Z)
    (W : nat -> nat -> list (nat * Z)) f s :
  (forall X Y t, X < BitmapData.width img -> Y < BitmapData.height img ->
     proj (convertBlock _ GetYUVCoefficiants img colorInfo f ys us vs Y X t) =
     apply_writes (proj t) (W X Y)) ->
  proj (ColorToYUV8_loops _ GetYUVCoefficiants img colorInfo f ys us vs s) =
  apply_writes (proj s)
    (loop_indices (BitmapData.height img) 0 (BitmapData.height img) 2 ≫= fun Y =>
     loop_indices (BitmapData.width img) 0 (BitmapData.width img) 2 ≫= fun X => W X Y).
Proof.
  intros HW. unfold ColorToYUV8_loops, for_range.
  apply (for_loop_writes (fun _ _ => True)); [|done]. intros Y t HY _. split; [done|].
  apply (for_loop_writes (fun _ _ => True)); [|done]. intros X t' HX _. split; [done|].
  by apply HW.
Qed.

Lemma elem_of_block_writes (W : nat -> nat -> list (nat * Z)) (w h : nat) kv :
  kv ∈ (loop_indices h 0 h 2 ≫= fun Y => loop_indices w 0 w 2 ≫= fun X => W X Y) <->
  exists bx bj, 2 * bx < w /\ 2 * bj < h /\ kv ∈ W (2 * bx) (2 * bj).
Proof.
  rewrite list_elem_of_bind. split.
  - intros (Y & Hin & HY). apply list_elem_of_bind in Hin as (X & Hin & HX).
    apply elem_of_loop_indices in HY as (HY & j & ->); [|lia..].
    apply elem_of_loop_indices in HX as (HX & i & ->); [|lia..].
    exists i, j. by replace (2 * i) with (0 + i * 2) by lia;
                   replace (2 * j) with (0 + j * 2) by lia.
  - intros (bx & bj & Hx & Hy & Hin). exists (2 * bj). split.
    + apply list_elem_of_bind. exists (2 * bx). split; [done|].
      apply elem_of_loop_indices; [lia..|]. split; [done | exists bx; lia].
    + apply elem_of_loop_indices; [lia..|]. split; [done | exists bj; lia].
Qed.

Lemma shiftr_double n : Nat.shiftr (2 * n) 1 = n.
Proof. rewrite Nat.shiftr_div_pow2. change (2 ^ 1) with 2. by rewrite Nat.mul_comm, Nat.div_mul. Qed.

Lemma half_bounds n : 2 * (n / 2) <= n < 2 * (n / 2) + 2.
Proof.
  pose proof (Nat.div_mod_eq n 2). pose proof (Nat.mod_upper_bound n 2). lia.
Qed.

(** Indices [x + y * stride] with [x] below the stride name their pixel. *)
Lemma plane_index_inj (stride x1 y1 x2 y2 : nat) :
  x1 < stride -> x2 < stride ->
  x1 + y1 * stride = x2 + y2 * stride -> x1 = x2 /\ y1 = y2.
Proof.
  intros H1 H2 Heq.
  assert (y1 = y2) as ->; [|lia].
  destruct (Nat.lt_trichotomy y1 y2) as [Hlt|[Heq'|Hlt]]; [|done|]; nia.
Qed.

Lemma elem_of_blockSamples X Y (p : nat * nat) :
  p ∈ blockSamples img X Y <->
  p.1 < BitmapData.width img /\ p.2 < BitmapData.height img /\
  (p.1 = X \/ p.1 = X + 1) /\ (p.2 = Y \/ p.2 = Y + 1).
Proof.
  unfold blockSamples. rewrite list_elem_of_In, filter_In, andb_true_iff.
  rewrite !Nat.ltb_lt. simpl. destruct p as [x y]. simpl.
  split.
  - intros [[H|[H|[H|[H|[]]]]] [? ?]]; inversion H; subst; lia.
  - intros (? & ? & [->| ->] & [->| ->]); auto 10.
Qed.

Lemma elem_of_blockRows Y (y : nat) :
  y ∈ blockRows img Y <-> y < BitmapData.height img /\ (y = Y \/ y = Y + 1).
Proof.
  unfold blockRows. rewrite list_elem_of_In, filter_In, Nat.ltb_lt. simpl.
  split.
  - intros [[H|[H|[]]] ?]; subst; lia.
  - intros (? & [->| ->]); auto.
Qed.

Lemma blockSamples_length X Y :
  X < BitmapData.width img -> Y < BitmapData.height img ->
  length (blockSamples img X Y) =
  (if BitmapData.width img <=? X + 1 then 1 else 2) *
  (if BitmapData.height img <=? Y + 1 then 1 else 2).
Proof.
  intros HX HY. unfold blockSamples. cbn [List.filter fst snd].
  by block_shapes HX HY.
Qed.

Lemma blockSamples_corner X Y :
  BitmapData.width img = X + 1 -> BitmapData.height img = Y + 1 ->
  blockSamples img X Y = [(X, Y)].
Proof.
  intros HX HY. unfold blockSamples. cbn [List.filter fst snd]. rewrite HX, HY.
  rewrite !Nat.ltb_irrefl, (proj2 (Nat.ltb_lt X (X + 1))), (proj2 (Nat.ltb_lt Y (Y + 1)))
    by lia.
  reflexivity.
Qed.

Lemma rowSamples_length X y :
  X < BitmapData.width img ->
  length (rowSamples img X y) = if BitmapData.width img <=? X + 1 then 1 else 2.
Proof.
  intros HX. unfold rowSamples. cbn [List.filter fst snd].
  destruct (Nat.leb_spec (BitmapData.width img) (X + 1)),
           (Nat.ltb_spec (X + 1) (BitmapData.width img)),
           (Nat.ltb_spec X (BitmapData.width img)); try lia; done.
Qed.

Lemma rowSamples_edge X y :
  BitmapData.width img = X + 1 -> rowSamples img X y = [(X, y)].
Proof.
  intros HX. unfold rowSamples. cbn [List.filter fst snd]. rewrite HX.
  by rewrite Nat.ltb_irrefl, (proj2 (Nat.ltb_lt X (X + 1))) by lia.
Qed.

(** A plane that gets one store per pixel. *)
Lemma store_per_pixel (proj : ConvState -> list Z) f s (stride : nat)
    (val : nat * nat -> Z) :
  (forall X Y t, X < BitmapData.width img -> Y < BitmapData.height img ->
     proj (convertBlock _ GetYUVCoefficiants img colorInfo f ys us vs Y X t) =
     apply_writes (proj t)
       (map (fun p => (p.1 + p.2 * stride, val p)) (blockSamples img X Y))) ->
  BitmapData.width img <= stride ->
  forall x y, x < BitmapData.width img -> y < BitmapData.height img ->
    x + y * stride < length (proj s) ->
    proj (ColorToYUV8_loops _ GetYUVCoefficiants img colorInfo f ys us vs s)
      !! (x + y * stride) = Some (val (x, y)).
Proof.
  intros HW Hstride x y Hx Hy Hlen.
  rewrite (ColorToYUV8_loops_writes proj _ f s HW).
  apply apply_writes_lookup; [done|..].
  - pose proof (half_bounds x). pose proof (half_bounds y).
    apply elem_of_block_writes. exists (x / 2), (y / 2).
    split; [lia|]. split; [lia|].
    apply list_elem_of_fmap. exists (x, y). split; [done|].
    apply elem_of_blockSamples. cbn [fst snd]. lia.
  - intros v' (bx & bj & Hbx & Hbj & Hin)%elem_of_block_writes.
    apply list_elem_of_fmap in Hin as ([x' y'] & Heq & Hp).
    apply elem_of_blockSamples in Hp as (Hx' & Hy' & _). simpl in *.
    inversion Heq as [[Hk Hv]].
    destruct (plane_index_inj stride x y x' y') as [-> ->]; [lia..|done].
Qed.

(** A plane that gets one store per block, at half resolution both ways. *)
Lemma store_per_block (proj : ConvState -> list Z) f s (stride : nat)
    (val : nat -> nat -> Z) :
  (forall X Y t, X < BitmapData.width img -> Y < BitmapData.height img ->
     proj (convertBlock _ GetYUVCoefficiants img colorInfo f ys us vs Y X t) =
     apply_writes (proj t) [(Nat.shiftr X 1 + Nat.shiftr Y 1 * stride, val X Y)]) ->
  BitmapData.width img <= 2 * stride ->
  forall bx bj, 2 * bx < BitmapData.width img -> 2 * bj < BitmapData.height img ->
    bx + bj * stride < length (proj s) ->
    proj (ColorToYUV8_loops _ GetYUVCoefficiants img colorInfo f ys us vs s)
      !! (bx + bj * stride) = Some (val (2 * bx) (2 * bj)).
Proof.
  intros HW Hstride bx bj Hbx Hbj Hlen.
  rewrite (ColorToYUV8_loops_writes proj _ f s HW).
  apply apply_writes_lookup; [done|..].
  - apply elem_of_block_writes. exists bx, bj.
    split; [done|]. split; [done|].
    rewrite !shiftr_double. by left.
  - intros v' (bx' & bj' & Hbx' & Hbj' & Hin)%elem_of_block_writes.
    rewrite !shiftr_double in Hin. apply list_elem_of_singleton in Hin.
    inversion Hin as [[Hk Hv]].
    destruct (plane_index_inj stride bx bj bx' bj') as [-> ->]; [lia..|done].
Qed.

(** A plane that gets one store per block and row, at half resolution
    across. *)
Lemma store_per_block_row (proj : ConvState -> list Z) f s (stride : nat)
    (val : nat -> nat -> Z) :
  (forall X Y t, X < BitmapData.width img -> Y < BitmapData.height img ->
     proj (convertBlock _ GetYUVCoefficiants img colorInfo f ys us vs Y X t) =
     apply_writes (proj t)
       (map (fun y => (Nat.shiftr X 1 + y * stride, val X y)) (blockRows img Y))) ->
  BitmapData.width img <= 2 * stride ->
  forall bx y, 2 * bx < BitmapData.width img -> y < BitmapData.height img ->
    bx + y * stride < length (proj s) ->
    proj (ColorToYUV8_loops _ GetYUVCoefficiants img colorInfo f ys us vs s)
      !! (bx + y * stride) = Some (val (2 * bx) y).
Proof.
  intros HW Hstride bx y Hbx Hy Hlen.
  rewrite (ColorToYUV8_loops_writes proj _ f s HW).
  apply apply_writes_lookup; [done|..].
  - pose proof (half_bounds y).
    apply elem_of_block_writes. exists bx, (y / 2).
    split; [done|]. split; [lia|].
    rewrite shiftr_double.
    apply list_elem_of_fmap. exists y. split; [done|].
    apply elem_of_blockRows. lia.
  - intros v' (bx' & bj' & Hbx' & Hbj' & Hin)%elem_of_block_writes.
    rewrite shiftr_double in Hin.
    apply list_elem_of_fmap in Hin as (y' & Heq & Hy').
    apply elem_of_blockRows in Hy' as (Hy' & _).
    inversion Heq as [[Hk Hv]].
    destruct (plane_index_inj stride bx y bx' y') as [-> ->]; [lia..|done].
Qed.

(** Under 4:4:4 the chroma planes hold, at every pixel, the quantized
    chroma of that pixel. *)
Lemma ColorToYUV8_444_chroma_at s x y :
  BitmapData.width img <= us -> BitmapData.width img <= vs ->
  x < BitmapData.width img -> y < BitmapData.height img ->
  x + y * us < length (uPlane s) -> x + y * vs < length (vPlane s) ->
  let s' := ColorToYUV8_loops _ GetYUVCoefficiants img colorInfo Subsampling444
              ys us vs s in
  uPlane s' !! (x + y * us) = Some (yuvToUNorm ChanU (chromaU (x, y))) /\
  vPlane s' !! (x + y * vs) = Some (yuvToUNorm ChanV (chromaV (x, y))).
Proof.
  intros Hus Hvs Hx Hy HlenU HlenV s'. subst s'. split.
  - apply (store_per_pixel uPlane Subsampling444 s us
             (fun p => yuvToUNorm ChanU (chromaU p))); try done.
    intros X Y t HX HY. by apply convertBlock_444_chroma.
  - apply (store_per_pixel vPlane Subsampling444 s vs
             (fun p => yuvToUNorm ChanV (chromaV p))); try done.
    intros X Y t HX HY. by apply convertBlock_444_chroma.
Qed.

End Blocks.

(** * [AlphaToY8]: the stores *)

Lemma AlphaToY8_writes img yPlane0 yPlaneStride :
  AlphaToY8 img yPlane0 yPlaneStride =
  apply_writes yPlane0
    (loop_indices (BitmapData.height img) 0 (BitmapData.height img) 1 ≫= fun y =>
     loop_indices (BitmapData.width img) 0 (BitmapData.width img) 1 ≫= fun x =>
     [(y * yPlaneStride + x, ColorBgra.a (pixel_at img x y))]).
Proof.
  unfold AlphaToY8, for_range.
  apply (for_loop_writes (fun _ _ => True) (fun p => p)); [|done].
  intros y plane Hy _. split; [done|].
  apply (for_loop_writes
    (fun x c => src c = y * BitmapData.stride img + x * ColorBgra.size /\
                dst c = y * yPlaneStride + x) dstPlane).
  - intros x c Hx [Hsrc Hdst]. simpl. rewrite Hsrc, Hdst.
    split; [unfold ColorBgra.size; lia | done].
  - simpl. lia.
Qed.

Lemma AlphaToY8_at img yPlane0 yPlaneStride x y :
  BitmapData.width img <= yPlaneStride ->
  x < BitmapData.width img -> y < BitmapData.height img ->
  x + y * yPlaneStride < length yPlane0 ->
  AlphaToY8 img yPlane0 yPlaneStride !! (x + y * yPlaneStride) =
  Some (ColorBgra.a (pixel_at img x y)).
Proof.
  intros Hstride Hx Hy Hlen. rewrite AlphaToY8_writes.
  apply apply_writes_lookup; [done|..].
  - apply list_elem_of_bind. exists y. split.
    + apply list_elem_of_bind. exists x. split.
      * rewrite (Nat.add_comm x). by left.
      * apply elem_of_loop_indices; [lia..|]. split; [done | exists x; lia].
    + apply elem_of_loop_indices; [lia..|]. split; [done | exists y; lia].
  - intros v' (y' & Hin & Hy')%list_elem_of_bind.
    apply list_elem_of_bind in Hin as (x' & Hin & Hx').
    apply elem_of_loop_indices in Hy' as (Hy' & _); [|lia..].
    apply elem_of_loop_indices in Hx' as (Hx' & _); [|lia..].
    apply list_elem_of_singleton in Hin. inversion Hin as [[Hk Hv]].
    destruct (plane_index_inj yPlaneStride x y x' y') as [-> ->]; [lia..|done].
Qed.

(** * [ConvertAlphaToAOMImage]: the chroma rows *)

Lemma zeroChroma_plane_Y img aomImage :
  aom_image.plane_Y (zeroChroma img aomImage) = aom_image.plane_Y aomImage.
Proof.
  unfold zeroChroma.
  apply (for_range_inv (fun t => aom_image.plane_Y t = aom_image.plane_Y aomImage)); done.
Qed.

(** * [ConvertAlphaToAOMImage]: the chroma rows it leaves alone *)

Lemma memset_zero_untouched (p : list Z) (off n k : nat) :
  k < off \/ off + n <= k -> memset_zero p off n !! k = p !! k.
Proof.
  revert p off. induction n as [|n IH]; intros p off Hk; simpl; [done|].
  rewrite IH by lia. apply list_lookup_insert_ne. lia.
Qed.

(** No byte from chroma row [height / 2] on is stored to. *)
Lemma zeroChroma_untouched img aomImage (j : nat) :
  let kU := BitmapData.height img / 2 * aom_image.stride_U aomImage + j in
  let kV := BitmapData.height img / 2 * aom_image.stride_V aomImage + j in
  aom_image.plane_U (zeroChroma img aomImage) !! kU = aom_image.plane_U aomImage !! kU /\
  aom_image.plane_V (zeroChroma img aomImage) !! kV = aom_image.plane_V aomImage !! kV.
Proof.
  intros kU kV. unfold zeroChroma.
  apply (for_range_inv (fun t =>
           (aom_image.stride_U t = aom_image.stride_U aomImage /\
            aom_image.stride_V t = aom_image.stride_V aomImage) /\
           aom_image.plane_U t !! kU = aom_image.plane_U aomImage !! kU /\
           aom_image.plane_V t !! kV = aom_image.plane_V aomImage !! kV)); [|done].
  intros y t Hy ([HsU HsV] & HU & HV). split; [done|]. simpl.
  rewrite !memset_zero_untouched; [done|..].
  - rewrite HsV. subst kV. right. nia.
  - rewrite HsU. subst kU. right. nia.
Qed.

Lemma zeroChroma_monochrome img aomImage :
  aom_image.monochrome (zeroChroma img aomImage) = aom_image.monochrome aomImage.
Proof.
  unfold zeroChroma.
  apply (for_range_inv
           (fun t => aom_image.monochrome t = aom_image.monochrome aomImage)); done.
Qed.

Lemma zeroChroma_stride_Y img aomImage :
  aom_image.stride_Y (zeroChroma img aomImage) = aom_image.stride_Y aomImage.
Proof.
  unfold zeroChroma.
  apply (for_range_inv
           (fun t => aom_image.stride_Y t = aom_image.stride_Y aomImage)); done.
Qed.

(** * The compression entry point *)

Lemma img_allocations_app t1 t2 :
  img_allocations (t1 ++ t2) = img_allocations t1 + img_allocations t2.
Proof. unfold img_allocations. by rewrite List.filter_app, length_app. Qed.

Lemma img_frees_app t1 t2 : img_frees (t1 ++ t2) = img_frees t1 + img_frees t2.
Proof. unfold img_frees. by rewrite List.filter_app, length_app. Qed.

Lemma report_progress_eq world :
  report_progress world = (progress_answer world, after_progress world).
Proof. done. Qed.

(** A failing allocation: the allocator has nothing left, or answers null. *)
Lemma aom_img_alloc_fails fmt d_w d_h align world :
  aom_allocs world = [] \/ (exists rest, aom_allocs world = None :: rest) ->
  aom_img_alloc fmt d_w d_h align world =
  (None, mkWorld (progress world) (tail (aom_allocs world))
           (trace world ++ [EvImgAlloc fmt d_w d_h align false])).
Proof.
  unfold aom_img_alloc, emit, bind, ret.
  intros [H | [rest H]]; rewrite !H; reflexivity.
Qed.

Lemma aom_img_alloc_succeeds fmt d_w d_h align world img rest :
  aom_allocs world = Some img :: rest ->
  aom_img_alloc fmt d_w d_h align world =
  (Some img, mkWorld (progress world) rest
               (trace world ++ [EvImgAlloc fmt d_w d_h align true])).
Proof. unfold aom_img_alloc. intros H. rewrite H. reflexivity. Qed.

(** The color image [ConvertColorToAOMImage] makes of a fresh image. *)
Lemma ConvertColorToAOMImage_succeeds {ColorConversionInfo : Type}
    (GetYUVCoefficiants : ColorConversionInfo -> YUVCoefficiants.t)
    image colorInfo yuvFormat aomFormat world fresh rest :
  aom_allocs world = Some fresh :: rest ->
  exists color,
    ConvertColorToAOMImage GetYUVCoefficiants image colorInfo yuvFormat aomFormat world =
    (Some color,
     mkWorld (progress world) rest
       (trace world ++ [EvImgAlloc aomFormat (BitmapData.width image)
                          (BitmapData.height image) 16 true])).
Proof.
  intros Hallocs. unfold ConvertColorToAOMImage, bind.
  rewrite (aom_img_alloc_succeeds _ _ _ _ _ _ _ Hallocs).
  destruct (ColorToYUV8 _ _ _ _ _ _ _ _ _ _) as [[py pu] pv]. by eexists.
Qed.

(** * Further facts *)

(** ** Quantization *)

(** The bytes on which normalizing and quantizing again is checked. *)
Lemma byte_round_trip_checked :
  forallb (fun n => (yuvToUNorm ChanY (F32.div (F32.of_Z (Z.of_nat n)) F32.c255)
                     =? Z.of_nat n)%Z)
          (seq 0 256) = true.
Proof. by vm_compute. Qed.

(** ** Loops with an invariant that follows the loop variable *)


(** ** [memset] *)



(** ** The planes keep their lengths *)

Section Lengths.

Context {ColorConversionInfo : Type}.
Variable GetYUVCoefficiants : ColorConversionInfo -> YUVCoefficiants.t.
Variable colorInfo : ColorConversionInfo.
Variable img : BitmapData.t.
Variables ys us vs : nat.

Lemma convertBlock_lengths f X Y s :
  X < BitmapData.width img -> Y < BitmapData.height img ->
  let s' := convertBlock _ GetYUVCoefficiants img colorInfo f ys us vs Y X s in
  length (yPlane s') = length (yPlane s) /\
  length (uPlane s') = length (uPlane s) /\
  length (vPlane s') = length (vPlane s).
Proof.
  intros HX HY s'. subst s'. split.
  { by rewrite (convertBlock_yPlane GetYUVCoefficiants colorInfo img ys us vs),
               apply_writes_length. }
  destruct (YUVChromaSubsampling_eqb f Subsampling444) eqn:H444;
    [destruct f; try discriminate H444;
     destruct (convertBlock_444_chroma GetYUVCoefficiants colorInfo img ys us vs
                 X Y s HX HY) as [-> ->];
     by rewrite !apply_writes_length|].
  destruct (YUVChromaSubsampling_eqb f Subsampling420) eqn:H420;
    [destruct f; try discriminate H420;
     destruct (convertBlock_420_chroma GetYUVCoefficiants colorInfo img ys us vs
                 X Y s HX HY) as [-> ->];
     by rewrite !apply_writes_length|].
  destruct (YUVChromaSubsampling_eqb f Subsampling422) eqn:H422;
    [destruct f; try discriminate H422;
     destruct (convertBlock_422_chroma GetYUVCoefficiants colorInfo img ys us vs
                 X Y s HX HY) as [-> ->];
     by rewrite !apply_writes_length|].
  by destruct (convertBlock_no_chroma GetYUVCoefficiants colorInfo img ys us vs
                 f X Y s H444 H420 H422) as [-> ->].
Qed.

Lemma ColorToYUV8_loops_lengths f s :
  let s' := ColorToYUV8_loops _ GetYUVCoefficiants img colorInfo f ys us vs s in
  length (yPlane s') = length (yPlane s) /\
  length (uPlane s') = length (uPlane s) /\
  length (vPlane s') = length (vPlane s).
Proof.
  intros s'. subst s'. unfold ColorToYUV8_loops.
  apply (for_range_inv (fun t =>
           length (yPlane t) = length (yPlane s) /\
           length (uPlane t) = length (uPlane s) /\
           length (vPlane t) = length (vPlane s))); [|done].
  intros Y t HY Ht.
  apply (for_range_inv (fun t =>
           length (yPlane t) = length (yPlane s) /\
           length (uPlane t) = length (uPlane s) /\
           length (vPlane t) = length (vPlane s))); [|done].
  intros X t' HX (Hy & Hu & Hv).
  destruct (convertBlock_lengths f X Y t' HX HY) as (-> & -> & ->). done.
Qed.

(** A byte of a plane that no block stores to is as before. *)
Lemma ColorToYUV8_loops_untouched (proj : ConvState -> list Z)
    (W : nat -> nat -> list (nat * Z)) f s (k : nat) :
  (forall X Y t, X < BitmapData.width img -> Y < BitmapData.height img ->
     proj (convertBlock _ GetYUVCoefficiants img colorInfo f ys us vs Y X t) =
     apply_writes (proj t) (W X Y)) ->
  (forall bx bj v, 2 * bx < BitmapData.width img -> 2 * bj < BitmapData.height img ->
     (k, v) ∉ W (2 * bx) (2 * bj)) ->
  proj (ColorToYUV8_loops _ GetYUVCoefficiants img colorInfo f ys us vs s) !! k =
  proj s !! k.
Proof.
  intros HW Hk.
  rewrite (ColorToYUV8_loops_writes GetYUVCoefficiants colorInfo img ys us vs proj _ f s HW).
  apply apply_writes_untouched.
  intros v (bx & bj & Hbx & Hbj & Hin)%elem_of_block_writes.
  by apply (Hk bx bj v).
Qed.

End Lengths.

(** ** [AlphaToY8]: the bytes it leaves alone *)

Lemma AlphaToY8_length img yPlane0 yPlaneStride :
  length (AlphaToY8 img yPlane0 yPlaneStride) = length yPlane0.
Proof. by rewrite AlphaToY8_writes, apply_writes_length. Qed.

Lemma AlphaToY8_untouched img yPlane0 yPlaneStride (k : nat) :
  (forall x y, x < BitmapData.width img -> y < BitmapData.height img ->
     k <> x + y * yPlaneStride) ->
  AlphaToY8 img yPlane0 yPlaneStride !! k = yPlane0 !! k.
Proof.
  intros Hk. rewrite AlphaToY8_writes. apply apply_writes_untouched.
  intros v (y & Hin & Hy)%list_elem_of_bind.
  apply list_elem_of_bind in Hin as (x & Hin & Hx).
  apply elem_of_loop_indices in Hy as (Hy & _); [|lia..].
  apply elem_of_loop_indices in Hx as (Hx & _); [|lia..].
  apply list_elem_of_singleton in Hin. inversion Hin as [[Hidx Hv]].
  apply (Hk x y Hx Hy). lia.
Qed.

(** ** [ConvertAlphaToAOMImage]: the chroma rows it zeroes *)

Lemma zeroChroma_strides img aomImage :
  aom_image.stride_U (zeroChroma img aomImage) = aom_image.stride_U aomImage /\
  aom_image.stride_V (zeroChroma img aomImage) = aom_image.stride_V aomImage.
Proof.
  unfold zeroChroma.
  apply (for_range_inv (fun t =>
           aom_image.stride_U t = aom_image.stride_U aomImage /\
           aom_image.stride_V t = aom_image.stride_V aomImage)); done.
Qed.


(** ** The converters and the allocator *)

Lemma ConvertColorToAOMImage_fails {ColorConversionInfo : Type}
    (GetYUVCoefficiants : ColorConversionInfo -> YUVCoefficiants.t)
    image colorInfo yuvFormat aomFormat world :
  next_alloc_fails world ->
  ConvertColorToAOMImage GetYUVCoefficiants image colorInfo yuvFormat aomFormat world =
  (None, with_events world (tail (aom_allocs world))
           [EvImgAlloc aomFormat (BitmapData.width image) (BitmapData.height image)
              16 false]).
Proof.
  intros Hfail. unfold ConvertColorToAOMImage, bind.
  by rewrite aom_img_alloc_fails.
Qed.

Lemma ConvertAlphaToAOMImage_fails image world :
  next_alloc_fails world ->
  ConvertAlphaToAOMImage image world =
  (None, with_events world (tail (aom_allocs world))
           [EvImgAlloc AOM_IMG_FMT_I420 (BitmapData.width image)
              (BitmapData.height image) 16 false]).
Proof.
  intros Hfail. unfold ConvertAlphaToAOMImage, bind.
  by rewrite aom_img_alloc_fails.
Qed.

Lemma ConvertAlphaToAOMImage_succeeds image world fresh rest :
  aom_allocs world = Some fresh :: rest ->
  ConvertAlphaToAOMImage image world =
  (Some (zeroChroma image
           (aom_image.set_planes
              (aom_image.set_monochrome
                 (aom_image.set_range fresh AOM_CR_FULL_RANGE) 1)
              (AlphaToY8 image (aom_image.plane_Y fresh) (aom_image.stride_Y fresh))
              (aom_image.plane_U fresh) (aom_image.plane_V fresh))),
   with_events world rest
     [EvImgAlloc AOM_IMG_FMT_I420 (BitmapData.width image)
        (BitmapData.height image) 16 true]).
Proof.
  intros Hallocs. unfold ConvertAlphaToAOMImage, bind.
  by rewrite (aom_img_alloc_succeeds _ _ _ _ _ _ _ Hallocs).
Qed.

Lemma next_alloc_cases (world : World) :
  next_alloc_fails world \/
  exists fresh rest, aom_allocs world = Some fresh :: rest.
Proof.
  unfold next_alloc_fails. destruct (aom_allocs world) as [|[fresh|] rest]; eauto.
Qed.

(** ** Images handed out and given back *)

Lemma images_balanced_refl world : images_balanced world world.
Proof. unfold images_balanced. lia. Qed.

Lemma images_balanced_events world events w' :
  img_allocations events = img_frees events ->
  img_allocations (trace w') = img_allocations (trace world ++ events) ->
  img_frees (trace w') = img_frees (trace world ++ events) ->
  images_balanced world w'.
Proof.
  unfold images_balanced. intros Hev -> ->.
  rewrite img_allocations_app, img_frees_app. lia.
Qed.

Section Balance.

Context {ColorConversionInfo : Type}.
Variable GetYUVCoefficiants : ColorConversionInfo -> YUVCoefficiants.t.
Variable CompressAOMImages :
  aom_image.t -> option aom_image.t -> EncoderOptions.t ->
  pointer -> pointer -> pointer -> M EncoderStatus.
Hypothesis Hencoder : encoder_keeps_images CompressAOMImages.

Lemma CompressWithAOM_balanced image encodeOptions colorInfo
    outputAllocator compressedColorImage compressedAlphaImage world :
  images_balanced world
    (CompressWithAOM _ GetYUVCoefficiants CompressAOMImages image encodeOptions
       colorInfo outputAllocator compressedColorImage compressedAlphaImage world).2.
Proof using Hencoder.
  unfold CompressWithAOM.
  destruct (aomFormat_of _) as [aomFormat|]; [|apply images_balanced_refl].
  unfold bind at 1.
  destruct (next_alloc_cases world) as [Hfail|(freshC & rest & Hallocs)].
  { rewrite ConvertColorToAOMImage_fails by done. simpl.
    eapply images_balanced_events; [|reflexivity..]. done. }
  destruct (ConvertColorToAOMImage_succeeds GetYUVCoefficiants image colorInfo
              (EncoderOptions.yuvFormat encodeOptions) aomFormat world freshC rest
              Hallocs) as [color ->].
  set (world1 := mkWorld _ rest _).
  unfold ScopedAOMImage_scope at 1. unfold bind at 1.
  destruct compressedAlphaImage as [alphaOut|].
  - unfold bind at 1.
    destruct (next_alloc_cases world1) as [Hfail|(freshA & rest' & Hallocs')].
    + rewrite ConvertAlphaToAOMImage_fails by done. simpl.
      eapply images_balanced_events; [|rewrite <- !app_assoc; reflexivity..]. done.
    + rewrite (ConvertAlphaToAOMImage_succeeds _ _ _ _ Hallocs').
      set (alpha := zeroChroma _ _).
      unfold ScopedAOMImage_scope, call_CompressAOMImages, bind, emit.
      set (world2 := mkWorld _ _ (trace (with_events _ _ _) ++ _)).
      destruct (Hencoder color (Some alpha) encodeOptions outputAllocator
                  compressedColorImage (Some alphaOut) world2) as [Ha Hf].
      destruct (CompressAOMImages color (Some alpha) encodeOptions outputAllocator
                  compressedColorImage (Some alphaOut) world2) as [status w'].
      simpl in *. unfold images_balanced. simpl.
      rewrite !img_allocations_app, !img_frees_app, Ha, Hf.
      rewrite !img_allocations_app, !img_frees_app.
      unfold img_allocations, img_frees. simpl. lia.
  - unfold ret at 1.
    unfold ScopedAOMImage_scope, call_CompressAOMImages, bind, emit.
    set (world2 := mkWorld _ _ (trace world1 ++ _)).
    destruct (Hencoder color None encodeOptions outputAllocator
                compressedColorImage None world2) as [Ha Hf].
    destruct (CompressAOMImages color None encodeOptions outputAllocator
                compressedColorImage None world2) as [status w'].
    simpl in *. unfold images_balanced. simpl.
    rewrite !img_allocations_app, !img_frees_app, Ha, Hf.
    rewrite !img_allocations_app, !img_frees_app.
    unfold img_allocations, img_frees. simpl. lia.
Qed.

End Balance.

(** * The converters *)

(** C1 (the code departs from it).  Under [IdentityMatrix] the converter
    stores no chroma at all: for every raster, the U and V planes come back
    as they went in.  On one blue pixel, [Subsampling444] stores U = 255 and
    V = 107 where [IdentityMatrix] leaves the planes' former bytes. *)
Theorem C1_identity_matrix_stores_no_chroma :
  (forall (ColorConversionInfo : Type)
          (GetYUVCoefficiants : ColorConversionInfo -> YUVCoefficiants.t)
          (bgraImage : BitmapData.t) (colorInfo : ColorConversionInfo)
          (yPlane0 uPlane0 vPlane0 : list Z) (ys us vs : nat),
     let planes := ColorToYUV8 GetYUVCoefficiants bgraImage colorInfo IdentityMatrix
                     yPlane0 ys uPlane0 us vPlane0 vs in
     planes.1.2 = uPlane0 /\ planes.2 = vPlane0) /\
  ColorToYUV8 bt601_lookup blue_pixel tt IdentityMatrix [0; 0]%Z 2 [7; 7]%Z 2 [9; 9]%Z 2
    = ([29; 0], [7; 7], [9; 9])%Z /\
  ColorToYUV8 bt601_lookup blue_pixel tt Subsampling444 [0; 0]%Z 2 [7; 7]%Z 2 [9; 9]%Z 2
    = ([29; 0], [255; 7], [107; 9])%Z.
Proof.
  split; [|split; reflexivity].
  intros. subst planes. unfold ColorToYUV8. cbn [fst snd].
  by destruct (ColorToYUV8_loops_no_chroma GetYUVCoefficiants colorInfo bgraImage
                 IdentityMatrix ys us vs (mkConv yuvBlock_init yPlane0 uPlane0 vPlane0)
                 eq_refl eq_refl eq_refl).
Qed.

(** C3.  For a fixed raster and color info the luma plane is the same in
    every subsampling mode (4:2:0, 4:2:2 and 4:4:4 among them), whatever the
    chroma planes and strides: the whole plane when the conversions start
    from the same plane, and in any case the byte of each pixel, which is
    the quantized luma of that pixel. *)
Theorem C3_luma_plane_same_in_every_mode
    (ColorConversionInfo : Type)
    (GetYUVCoefficiants : ColorConversionInfo -> YUVCoefficiants.t)
    (bgraImage : BitmapData.t) (colorInfo : ColorConversionInfo)
    (mode1 mode2 : YUVChromaSubsampling)
    (yPlane1 yPlane2 : list Z) (ys : nat)
    (uPlane1 vPlane1 uPlane2 vPlane2 : list Z) (us1 vs1 us2 vs2 : nat) :
  let run mode yPlane0 uPlane0 us vPlane0 vs :=
    (ColorToYUV8 GetYUVCoefficiants bgraImage colorInfo mode
       yPlane0 ys uPlane0 us vPlane0 vs).1.1 in
  (yPlane1 = yPlane2 ->
   run mode1 yPlane1 uPlane1 us1 vPlane1 vs1 = run mode2 yPlane2 uPlane2 us2 vPlane2 vs2) /\
  (BitmapData.width bgraImage <= ys ->
   forall x y, x < BitmapData.width bgraImage -> y < BitmapData.height bgraImage ->
     x + y * ys < length yPlane1 -> x + y * ys < length yPlane2 ->
     run mode1 yPlane1 uPlane1 us1 vPlane1 vs1 !! (x + y * ys) =
       Some (yuvToUNorm ChanY
               (YUVBlock.y (pixelYUV (GetYUVCoefficiants colorInfo) bgraImage (x, y)))) /\
     run mode2 yPlane2 uPlane2 us2 vPlane2 vs2 !! (x + y * ys) =
     run mode1 yPlane1 uPlane1 us1 vPlane1 vs1 !! (x + y * ys)).
Proof.
  intros run. subst run. unfold ColorToYUV8. cbn [fst snd]. split.
  - intros <-.
    apply (ColorToYUV8_loops_same_luma GetYUVCoefficiants colorInfo). by split.
  - intros Hstride x y Hx Hy Hlen1 Hlen2.
    assert (forall mode yPlane0 uPlane0 us vPlane0 vs,
              x + y * ys < length yPlane0 ->
              yPlane (ColorToYUV8_loops _ GetYUVCoefficiants bgraImage colorInfo mode
                        ys us vs (mkConv yuvBlock_init yPlane0 uPlane0 vPlane0))
                !! (x + y * ys) =
              Some (yuvToUNorm ChanY
                      (YUVBlock.y (pixelYUV (GetYUVCoefficiants colorInfo) bgraImage (x, y)))))
      as Hluma.
    { intros mode yPlane0 uPlane0 us vPlane0 vs Hlen.
      apply (store_per_pixel GetYUVCoefficiants colorInfo bgraImage ys us vs yPlane mode _ ys
               (fun p => yuvToUNorm ChanY
                  (YUVBlock.y (pixelYUV (GetYUVCoefficiants colorInfo) bgraImage p))));
        try done.
      intros X Y t HX HY. by apply convertBlock_yPlane. }
    by rewrite !Hluma.
Qed.

Lemma C3_luma_plane_same_in_every_mode_witness :
  (ColorToYUV8 bt601_lookup raster_3x3 tt Subsampling420
     (replicate 12 0%Z) 4 (replicate 4 0%Z) 2 (replicate 4 0%Z) 2).1.1 =
  (ColorToYUV8 bt601_lookup raster_3x3 tt Subsampling444
     (replicate 12 0%Z) 4 (replicate 12 0%Z) 4 (replicate 12 0%Z) 4).1.1 /\
  (ColorToYUV8 bt601_lookup raster_3x3 tt Subsampling444
     (replicate 12 1%Z) 4 (replicate 12 0%Z) 4 (replicate 12 0%Z) 4).1.1 !! (2 + 1 * 4) =
  (ColorToYUV8 bt601_lookup raster_3x3 tt Subsampling420
     (replicate 12 0%Z) 4 (replicate 4 0%Z) 2 (replicate 4 0%Z) 2).1.1 !! (2 + 1 * 4).
Proof.
  destruct (C3_luma_plane_same_in_every_mode unit bt601_lookup raster_3x3 tt
              Subsampling420 Subsampling444 (replicate 12 0%Z) (replicate 12 0%Z) 4
              (replicate 4 0%Z) (replicate 4 0%Z) (replicate 12 0%Z) (replicate 12 0%Z)
              2 2 4 4) as [Hwhole _].
  destruct (C3_luma_plane_same_in_every_mode unit bt601_lookup raster_3x3 tt
              Subsampling420 Subsampling444 (replicate 12 0%Z) (replicate 12 1%Z) 4
              (replicate 4 0%Z) (replicate 4 0%Z) (replicate 12 0%Z) (replicate 12 0%Z)
              2 2 4 4) as [_ Hpixel].
  split.
  - apply Hwhole. reflexivity.
  - apply Hpixel; simpl; lia.
Defined.

(** C4.  Under 4:2:0 the chroma byte of every block, and under 4:2:2 the
    chroma byte of every row of every block, is the quantized average of the
    chroma of the pixels the raster has in that block (or row): their float
    sum over their number, which is 1 or 2 in a block cut by an odd edge.
    Where only one pixel is there (the last column of an odd width under
    4:2:2, and under 4:2:0 the corner block of an odd width and height), the
    byte is the quantized chroma of that pixel.  In the 3x3 sample the
    corner byte is 186, the quantized chroma of its pixel, where a division
    by 4 would give 142. *)
Theorem C4_boundary_blocks_average_present_samples
    (ColorConversionInfo : Type)
    (GetYUVCoefficiants : ColorConversionInfo -> YUVCoefficiants.t)
    (bgraImage : BitmapData.t) (colorInfo : ColorConversionInfo)
    (yPlane0 uPlane0 vPlane0 : list Z) (ys us vs : nat) (bx y : nat) :
  let w := BitmapData.width bgraImage in
  let h := BitmapData.height bgraImage in
  let chromaU p := YUVBlock.u (pixelYUV (GetYUVCoefficiants colorInfo) bgraImage p) in
  let chromaV p := YUVBlock.v (pixelYUV (GetYUVCoefficiants colorInfo) bgraImage p) in
  let run mode := ColorToYUV8 GetYUVCoefficiants bgraImage colorInfo mode
                    yPlane0 ys uPlane0 us vPlane0 vs in
  w <= 2 * us -> w <= 2 * vs -> 2 * bx < w -> y < h ->
  bx + y * us < length uPlane0 -> bx + y * vs < length vPlane0 ->
  (* 4:2:0, the block in block row [y] *)
  (2 * y < h ->
   let block := blockSamples bgraImage (2 * bx) (2 * y) in
   (run Subsampling420).1.2 !! (bx + y * us) =
     Some (yuvToUNorm ChanU (average (map chromaU block))) /\
   (run Subsampling420).2 !! (bx + y * vs) =
     Some (yuvToUNorm ChanV (average (map chromaV block))) /\
   length block = (if w <=? 2 * bx + 1 then 1 else 2) * (if h <=? 2 * y + 1 then 1 else 2) /\
   (w = 2 * bx + 1 -> h = 2 * y + 1 ->
    (run Subsampling420).1.2 !! (bx + y * us) =
      Some (yuvToUNorm ChanU (chromaU (w - 1, h - 1))) /\
    (run Subsampling420).2 !! (bx + y * vs) =
      Some (yuvToUNorm ChanV (chromaV (w - 1, h - 1))))) /\
  (* 4:2:2, row [y] *)
  (let row := rowSamples bgraImage (2 * bx) y in
   (run Subsampling422).1.2 !! (bx + y * us) =
     Some (yuvToUNorm ChanU (average (map chromaU row))) /\
   (run Subsampling422).2 !! (bx + y * vs) =
     Some (yuvToUNorm ChanV (average (map chromaV row))) /\
   length row = (if w <=? 2 * bx + 1 then 1 else 2) /\
   (w = 2 * bx + 1 ->
    (run Subsampling422).1.2 !! (bx + y * us) =
      Some (yuvToUNorm ChanU (chromaU (w - 1, y))) /\
    (run Subsampling422).2 !! (bx + y * vs) =
      Some (yuvToUNorm ChanV (chromaV (w - 1, y))))) /\
  (* the 3x3 sample *)
  (let planes := ColorToYUV8 bt601_lookup raster_3x3 tt Subsampling420
                   (replicate 12 0%Z) 4 (replicate 4 0%Z) 2 (replicate 4 0%Z) 2 in
   let u := YUVBlock.u (pixelYUV bt601 raster_3x3 (2, 2)) in
   planes.1.2 !! (1 + 1 * 2) = Some 186%Z /\
   yuvToUNorm ChanU u = 186%Z /\
   yuvToUNorm ChanU (F32.div u (F32.of_nat 4)) = 142%Z).
Proof.
  intros w h chromaU chromaV run Hus Hvs Hbx Hy HlenU HlenV.
  assert (forall p, valid_binary F32.prec F32.emax (chromaU p) = true) as HvalidU
    by (intros p; apply F32_div_valid).
  assert (forall p, valid_binary F32.prec F32.emax (chromaV p) = true) as HvalidV
    by (intros p; apply F32_div_valid).
  set (s0 := mkConv yuvBlock_init yPlane0 uPlane0 vPlane0).
  assert (forall mode, (run mode).1.2 =
            uPlane (ColorToYUV8_loops _ GetYUVCoefficiants bgraImage colorInfo
                      mode ys us vs s0)) as HrunU by done.
  assert (forall mode, (run mode).2 =
            vPlane (ColorToYUV8_loops _ GetYUVCoefficiants bgraImage colorInfo
                      mode ys us vs s0)) as HrunV by done.
  rewrite !HrunU, !HrunV. clear HrunU HrunV. clear run.
  split; [|split; [|by vm_compute]].
  - intros Hy2 block.
    assert (uPlane (ColorToYUV8_loops _ GetYUVCoefficiants bgraImage colorInfo
                      Subsampling420 ys us vs s0) !! (bx + y * us) =
            Some (yuvToUNorm ChanU (average (map chromaU block)))) as HU.
    { apply (store_per_block GetYUVCoefficiants colorInfo bgraImage ys us vs uPlane
               Subsampling420 s0 us
               (fun X Y => yuvToUNorm ChanU (average (map chromaU (blockSamples bgraImage X Y)))));
        try done.
      intros X Y t HX HY. by apply convertBlock_420_chroma. }
    assert (vPlane (ColorToYUV8_loops _ GetYUVCoefficiants bgraImage colorInfo
                      Subsampling420 ys us vs s0) !! (bx + y * vs) =
            Some (yuvToUNorm ChanV (average (map chromaV block)))) as HV.
    { apply (store_per_block GetYUVCoefficiants colorInfo bgraImage ys us vs vPlane
               Subsampling420 s0 vs
               (fun X Y => yuvToUNorm ChanV (average (map chromaV (blockSamples bgraImage X Y)))));
        try done.
      intros X Y t HX HY. by apply convertBlock_420_chroma. }
    split; [done|]. split; [done|].
    split; [by apply blockSamples_length|].
    intros Hw Hh. rewrite HU, HV. subst block.
    rewrite (blockSamples_corner bgraImage (2 * bx) (2 * y)) by done. cbn [map].
    rewrite !yuvToUNorm_average_single by done.
    fold w h. rewrite Hw, Hh.
    replace (2 * bx + 1 - 1) with (2 * bx) by lia.
    replace (2 * y + 1 - 1) with (2 * y) by lia. done.
  - intros row.
    assert (uPlane (ColorToYUV8_loops _ GetYUVCoefficiants bgraImage colorInfo
                      Subsampling422 ys us vs s0) !! (bx + y * us) =
            Some (yuvToUNorm ChanU (average (map chromaU row)))) as HU.
    { apply (store_per_block_row GetYUVCoefficiants colorInfo bgraImage ys us vs uPlane
               Subsampling422 s0 us
               (fun X y => yuvToUNorm ChanU (average (map chromaU (rowSamples bgraImage X y)))));
        try done.
      intros X Y t HX HY. by apply convertBlock_422_chroma. }
    assert (vPlane (ColorToYUV8_loops _ GetYUVCoefficiants bgraImage colorInfo
                      Subsampling422 ys us vs s0) !! (bx + y * vs) =
            Some (yuvToUNorm ChanV (average (map chromaV row)))) as HV.
    { apply (store_per_block_row GetYUVCoefficiants colorInfo bgraImage ys us vs vPlane
               Subsampling422 s0 vs
               (fun X y => yuvToUNorm ChanV (average (map chromaV (rowSamples bgraImage X y)))));
        try done.
      intros X Y t HX HY. by apply convertBlock_422_chroma. }
    split; [done|]. split; [done|].
    split; [by apply rowSamples_length|].
    intros Hw. rewrite HU, HV. subst row.
    rewrite (rowSamples_edge bgraImage (2 * bx) y) by done. cbn [map].
    rewrite !yuvToUNorm_average_single by done.
    fold w. rewrite Hw.
    by replace (2 * bx + 1 - 1) with (2 * bx) by lia.
Qed.

Lemma C4_boundary_blocks_average_present_samples_witness :
  let run mode := ColorToYUV8 bt601_lookup raster_3x3 tt mode
                    (replicate 12 0%Z) 4 (replicate 6 0%Z) 2 (replicate 6 0%Z) 2 in
  (run Subsampling420).1.2 !! (1 + 1 * 2) =
    Some (yuvToUNorm ChanU (YUVBlock.u (pixelYUV bt601 raster_3x3 (3 - 1, 3 - 1)))) /\
  (run Subsampling422).1.2 !! (1 + 1 * 2) =
    Some (yuvToUNorm ChanU (YUVBlock.u (pixelYUV bt601 raster_3x3 (3 - 1, 1)))).
Proof.
  intros run.
  destruct (C4_boundary_blocks_average_present_samples unit bt601_lookup raster_3x3 tt
              (replicate 12 0%Z) (replicate 6 0%Z) (replicate 6 0%Z) 4 2 2 1 1)
    as (H420 & H422 & _); [simpl; lia ..|].
  destruct H420 as (_ & _ & _ & Hcorner); [simpl; lia|].
  destruct Hcorner as [HU _]; [reflexivity ..|].
  destruct H422 as (_ & _ & _ & Hedge).
  destruct Hedge as [HU' _]; [reflexivity|].
  split; [exact HU | exact HU'].
Defined.

(** C5.  With a luma plane whose rows are at least as long as the raster's
    and that holds the pixel's index, [AlphaToY8] leaves at [(x, y)] the alpha
    byte of the source pixel [(x, y)], the byte at offset 3 of the pixel, as
    it is; and that is the luma plane of the image
    [ConvertAlphaToAOMImage] returns, marked monochrome. *)
Theorem C5_alpha_copied_verbatim
    (bgraImage : BitmapData.t) (yPlane0 : list Z) (yPlaneStride x y : nat) :
  BitmapData.width bgraImage <= yPlaneStride ->
  x < BitmapData.width bgraImage -> y < BitmapData.height bgraImage ->
  x + y * yPlaneStride < length yPlane0 ->
  let alpha := load (BitmapData.scan0 bgraImage)
                    (y * BitmapData.stride bgraImage + x * 4 + 3) in
  AlphaToY8 bgraImage yPlane0 yPlaneStride !! (x + y * yPlaneStride) = Some alpha /\
  forall (world : World) (aomImage : aom_image.t) (rest : list (option aom_image.t)),
    aom_allocs world = Some aomImage :: rest ->
    aom_image.plane_Y aomImage = yPlane0 ->
    aom_image.stride_Y aomImage = yPlaneStride ->
    exists out,
      (ConvertAlphaToAOMImage bgraImage world).1 = Some out /\
      aom_image.plane_Y out !! (x + y * aom_image.stride_Y out) = Some alpha /\
      aom_image.monochrome out = 1%Z.
Proof.
  intros Hstride Hx Hy Hlen alpha.
  assert (AlphaToY8 bgraImage yPlane0 yPlaneStride !! (x + y * yPlaneStride) = Some alpha)
    as Hcopy by (by apply AlphaToY8_at).
  split; [done|].
  intros world aomImage rest Hallocs HplaneY HstrideY.
  unfold ConvertAlphaToAOMImage, bind, aom_img_alloc. rewrite Hallocs.
  eexists. split; [reflexivity|]. split.
  - rewrite zeroChroma_plane_Y, zeroChroma_stride_Y. simpl.
    by rewrite HplaneY, HstrideY.
  - by rewrite zeroChroma_monochrome.
Qed.

Lemma C5_alpha_copied_verbatim_witness :
  AlphaToY8 raster_3x3 (replicate 12 7%Z) 4 !! (2 + 1 * 4) = Some 120%Z.
Proof.
  apply (C5_alpha_copied_verbatim raster_3x3 (replicate 12 7%Z) 4 2 1); simpl; lia.
Defined.

(** C10.  Two rasters of the same size that agree on every blue, green and
    red byte give the same Y, U and V planes in every mode, whatever their
    alpha bytes; two that agree on every alpha byte give the same alpha luma
    plane, whatever their color bytes. *)
Theorem C10_color_and_alpha_do_not_interfere
    (ColorConversionInfo : Type)
    (GetYUVCoefficiants : ColorConversionInfo -> YUVCoefficiants.t)
    (img1 img2 : BitmapData.t) (colorInfo : ColorConversionInfo)
    (mode : YUVChromaSubsampling)
    (yPlane0 uPlane0 vPlane0 : list Z) (ys us vs : nat) :
  (same_colors img1 img2 ->
   ColorToYUV8 GetYUVCoefficiants img1 colorInfo mode yPlane0 ys uPlane0 us vPlane0 vs =
   ColorToYUV8 GetYUVCoefficiants img2 colorInfo mode yPlane0 ys uPlane0 us vPlane0 vs) /\
  (same_alpha img1 img2 ->
   AlphaToY8 img1 yPlane0 ys = AlphaToY8 img2 yPlane0 ys).
Proof.
  split.
  - intros Hsame. unfold ColorToYUV8.
    by rewrite (ColorToYUV8_loops_same_colors GetYUVCoefficiants colorInfo img1 img2).
  - apply AlphaToY8_same_alpha.
Qed.

Lemma C10_color_and_alpha_do_not_interfere_witness :
  ColorToYUV8 bt601_lookup raster_3x3 tt Subsampling420
    (replicate 12 0%Z) 4 (replicate 4 0%Z) 2 (replicate 4 0%Z) 2 =
  ColorToYUV8 bt601_lookup raster_3x3_other_alpha tt Subsampling420
    (replicate 12 0%Z) 4 (replicate 4 0%Z) 2 (replicate 4 0%Z) 2 /\
  AlphaToY8 raster_3x3 (replicate 12 0%Z) 4 =
  AlphaToY8 raster_3x3_other_colors (replicate 12 0%Z) 4.
Proof.
  split.
  - apply (C10_color_and_alpha_do_not_interfere unit bt601_lookup
             raster_3x3 raster_3x3_other_alpha tt Subsampling420).
    split; [reflexivity|]. split; [reflexivity|]. intros x y Hx Hy.
    destruct x as [|[|[|x]]]; [| | |simpl in Hx; lia];
      (destruct y as [|[|[|y]]]; [| | |simpl in Hy; lia]);
      repeat split; reflexivity.
  - apply (C10_color_and_alpha_do_not_interfere unit bt601_lookup
             raster_3x3 raster_3x3_other_colors tt Subsampling420
             (replicate 12 0%Z) (replicate 4 0%Z) (replicate 4 0%Z) 4 2 2).
    split; [reflexivity|]. split; [reflexivity|]. intros x y Hx Hy.
    destruct x as [|[|[|x]]]; [| | |simpl in Hx; lia];
      (destruct y as [|[|[|y]]]; [| | |simpl in Hy; lia]);
      reflexivity.
Defined.

(** C2 (the code departs from it).  [ConvertAlphaToAOMImage] zeroes
    [height / 2] chroma rows, rounding down: no byte from row [height / 2] on
    is stored to, and for an odd height that row is the last row of the
    plane.  For the 2x3 raster the second of the two chroma rows keeps
    the 205s the allocator left in it, in U and in V. *)
Theorem C2_last_chroma_row_of_odd_height_not_zeroed :
  (forall (bgraImage : BitmapData.t) (aomImage : aom_image.t) (j : nat),
     let kU := BitmapData.height bgraImage / 2 * aom_image.stride_U aomImage + j in
     let kV := BitmapData.height bgraImage / 2 * aom_image.stride_V aomImage + j in
     aom_image.plane_U (zeroChroma bgraImage aomImage) !! kU =
       aom_image.plane_U aomImage !! kU /\
     aom_image.plane_V (zeroChroma bgraImage aomImage) !! kV =
       aom_image.plane_V aomImage !! kV) /\
  (let world := sample_world patient_host [Some fresh_I420_2x3] in
   exists out,
     (ConvertAlphaToAOMImage raster_2x3 world).1 = Some out /\
     aom_image.plane_U out = replicate 8 0%Z ++ replicate 8 205%Z /\
     aom_image.plane_V out = replicate 8 0%Z ++ replicate 8 205%Z /\
     aom_image.plane_U out !! (0 + ((3 + 1) / 2 - 1) * 8) = Some 205%Z /\
     aom_image.plane_Y out !! (1 + 2 * 16) = Some 0%Z).
Proof.
  split; [apply zeroChroma_untouched|].
  eexists. split; [reflexivity|]. by vm_compute.
Qed.

(** * [CompressImage] *)

(** C6.  With the five required parameters non-null, when the progress
    callback answers [false] to its call, [CompressImage] returns
    [UserCancelled]; the world then differs from the one before only by the
    incremented counter and the record of that one callback call: no image
    was asked of the allocator (so none was converted) and the encoder was
    not called. *)
Theorem C6_cancel_before_any_work
    (ColorConversionInfo : Type)
    (GetYUVCoefficiants : ColorConversionInfo -> YUVCoefficiants.t)
    (CompressAOMImages :
       aom_image.t -> option aom_image.t -> EncoderOptions.t ->
       pointer -> pointer -> pointer -> M EncoderStatus)
    (image : BitmapData.t) (encodeOptions : EncoderOptions.t)
    (colorInfo : ColorConversionInfo)
    (outputAllocator compressedColorImage : nat) (compressedAlphaImage : pointer)
    (world : World) :
  progress_answer world = false ->
  let result :=
    CompressImage _ GetYUVCoefficiants CompressAOMImages
      (Some image) (Some encodeOptions) (Some tt) colorInfo
      (Some outputAllocator) (Some compressedColorImage) compressedAlphaImage world in
  result = (UserCancelled, after_progress world) /\
  aom_allocs result.2 = aom_allocs world /\
  trace result.2 =
    trace world ++ [EvProgress (progress_done_next world)
                      (ProgressContext.progressTotal (progress world)) false].
Proof.
  intros Hcancel result. subst result.
  unfold CompressImage, bind. rewrite report_progress_eq, Hcancel.
  split; [done|]. split; [done|]. simpl. by rewrite Hcancel.
Qed.

Lemma C6_cancel_before_any_work_witness :
  CompressImage _ bt601_lookup sample_encoder
    (Some raster_3x3) (Some (EncoderOptions.mk Subsampling420 [])) (Some tt) tt
    (Some 1) (Some 2) (Some 3)
    (sample_world cancelling_host [Some fresh_I444_3x3; Some fresh_I420_2x3])
  = (UserCancelled,
     mkWorld (ProgressContext.mk (ProgressContext.progressCallback cancelling_host) 1 2)
       [Some fresh_I444_3x3; Some fresh_I420_2x3]
       [EvProgress 1 2 false]).
Proof.
  apply (C6_cancel_before_any_work unit bt601_lookup sample_encoder
           raster_3x3 (EncoderOptions.mk Subsampling420 []) tt 1 2 (Some 3)
           (sample_world cancelling_host [Some fresh_I444_3x3; Some fresh_I420_2x3])).
  reflexivity.
Defined.

(** C7.  If one of [image], [encodeOptions], [progressContext],
    [outputAllocator] and [compressedColorImage] is null, [CompressImage]
    returns [NullParameter] and the world is as before: no callback call, no
    counter change, no allocation.  With these five non-null and
    [compressedAlphaImage] null the call is not rejected: it is the progress
    report followed, unless cancelled, by [CompressWithAOM]. *)
Theorem C7_null_parameter_rejected_without_effect
    (ColorConversionInfo : Type)
    (GetYUVCoefficiants : ColorConversionInfo -> YUVCoefficiants.t)
    (CompressAOMImages :
       aom_image.t -> option aom_image.t -> EncoderOptions.t ->
       pointer -> pointer -> pointer -> M EncoderStatus)
    (image : option BitmapData.t) (encodeOptions : option EncoderOptions.t)
    (progressContext : option unit) (colorInfo : ColorConversionInfo)
    (outputAllocator compressedColorImage compressedAlphaImage : pointer)
    (world : World) :
  (image = None \/ encodeOptions = None \/ progressContext = None \/
   outputAllocator = None \/ compressedColorImage = None ->
   CompressImage _ GetYUVCoefficiants CompressAOMImages
     image encodeOptions progressContext colorInfo
     outputAllocator compressedColorImage compressedAlphaImage world
   = (NullParameter, world)) /\
  (forall img opts ctx alloc out,
     image = Some img -> encodeOptions = Some opts -> progressContext = Some ctx ->
     outputAllocator = Some alloc -> compressedColorImage = Some out ->
     compressedAlphaImage = None ->
     CompressImage _ GetYUVCoefficiants CompressAOMImages
       image encodeOptions progressContext colorInfo
       outputAllocator compressedColorImage compressedAlphaImage world
     = if progress_answer world then
         CompressWithAOM _ GetYUVCoefficiants CompressAOMImages img opts colorInfo
           outputAllocator compressedColorImage None (after_progress world)
       else (UserCancelled, after_progress world)).
Proof.
  split.
  - intros Hnull. unfold CompressImage.
    destruct image, encodeOptions, progressContext, outputAllocator,
             compressedColorImage; try reflexivity.
    destruct Hnull as [H|[H|[H|[H|H]]]]; discriminate H.
  - intros img opts ctx alloc out -> -> -> -> -> ->.
    unfold CompressImage, bind. rewrite report_progress_eq.
    by destruct (progress_answer world).
Qed.

Lemma C7_null_parameter_rejected_without_effect_witness :
  let world := sample_world patient_host [Some fresh_I444_3x3] in
  CompressImage _ bt601_lookup sample_encoder
    (Some raster_3x3) (Some (EncoderOptions.mk Subsampling444 [])) (Some tt) tt
    None (Some 2) (Some 3) world = (NullParameter, world) /\
  (CompressImage _ bt601_lookup sample_encoder
     (Some raster_3x3) (Some (EncoderOptions.mk Subsampling444 [])) (Some tt) tt
     (Some 1) (Some 2) None world).1 = StatusOther 0.
Proof.
  intros world. split.
  - apply (C7_null_parameter_rejected_without_effect unit bt601_lookup sample_encoder
             (Some raster_3x3) (Some (EncoderOptions.mk Subsampling444 [])) (Some tt) tt
             None (Some 2) (Some 3) world).
    right. right. right. left. reflexivity.
  - rewrite (proj2 (C7_null_parameter_rejected_without_effect unit bt601_lookup
                      sample_encoder
                      (Some raster_3x3) (Some (EncoderOptions.mk Subsampling444 []))
                      (Some tt) tt (Some 1) (Some 2) None world)
               raster_3x3 (EncoderOptions.mk Subsampling444 []) tt 1 2
               eq_refl eq_refl eq_refl eq_refl eq_refl eq_refl).
    reflexivity.
Defined.

(** C8.  With a subsampling mode that is none of 4:0:0, 4:2:0, 4:2:2, 4:4:4
    and identity-matrix, [CompressWithAOM] returns [UnknownYUVFormat] and
    leaves the world as it was: the allocator was not asked for an image.
    Through [CompressImage], when the callback lets the call go on, the
    status is the same and the world has the progress report only. *)
Theorem C8_unknown_format_rejected_before_allocation
    (ColorConversionInfo : Type)
    (GetYUVCoefficiants : ColorConversionInfo -> YUVCoefficiants.t)
    (CompressAOMImages :
       aom_image.t -> option aom_image.t -> EncoderOptions.t ->
       pointer -> pointer -> pointer -> M EncoderStatus)
    (image : BitmapData.t) (encodeOptions : EncoderOptions.t)
    (colorInfo : ColorConversionInfo)
    (outputAllocator compressedColorImage : nat) (compressedAlphaImage : pointer)
    (world : World) :
  let yuvFormat := EncoderOptions.yuvFormat encodeOptions in
  yuvFormat <> Subsampling400 -> yuvFormat <> Subsampling420 ->
  yuvFormat <> Subsampling422 -> yuvFormat <> Subsampling444 ->
  yuvFormat <> IdentityMatrix ->
  CompressWithAOM _ GetYUVCoefficiants CompressAOMImages image encodeOptions colorInfo
    (Some outputAllocator) (Some compressedColorImage) compressedAlphaImage world
  = (UnknownYUVFormat, world) /\
  (progress_answer world = true ->
   CompressImage _ GetYUVCoefficiants CompressAOMImages
     (Some image) (Some encodeOptions) (Some tt) colorInfo
     (Some outputAllocator) (Some compressedColorImage) compressedAlphaImage world
   = (UnknownYUVFormat, after_progress world)).
Proof.
  intros yuvFormat H400 H420 H422 H444 Hid.
  assert (aomFormat_of yuvFormat = None) as Hfmt by (by destruct yuvFormat).
  assert (forall w,
            CompressWithAOM _ GetYUVCoefficiants CompressAOMImages image encodeOptions
              colorInfo (Some outputAllocator) (Some compressedColorImage)
              compressedAlphaImage w = (UnknownYUVFormat, w)) as Hreject.
  { intros w. unfold CompressWithAOM. fold yuvFormat. by rewrite Hfmt. }
  split; [apply Hreject|].
  intros Hgo. unfold CompressImage, bind. rewrite report_progress_eq, Hgo. simpl.
  apply Hreject.
Qed.

Lemma C8_unknown_format_rejected_before_allocation_witness :
  let world := sample_world patient_host [Some fresh_I444_3x3] in
  CompressWithAOM _ bt601_lookup sample_encoder
    raster_3x3 (EncoderOptions.mk (SubsamplingOther 7) []) tt
    (Some 1) (Some 2) (Some 3) world = (UnknownYUVFormat, world).
Proof.
  intros world.
  apply (C8_unknown_format_rejected_before_allocation unit bt601_lookup sample_encoder
           raster_3x3 (EncoderOptions.mk (SubsamplingOther 7) []) tt 1 2 (Some 3) world);
    discriminate.
Defined.

(** C9.  With a known subsampling mode and an alpha output requested, when
    the allocator gives the color image and then fails for the alpha image,
    [CompressWithAOM] returns [OutOfMemory] after [aom_img_free] has been
    called on the color image: the trace grows by the two allocator calls
    and that release, one image handed out and one given back. *)
Theorem C9_color_image_released_when_alpha_allocation_fails
    (ColorConversionInfo : Type)
    (GetYUVCoefficiants : ColorConversionInfo -> YUVCoefficiants.t)
    (CompressAOMImages :
       aom_image.t -> option aom_image.t -> EncoderOptions.t ->
       pointer -> pointer -> pointer -> M EncoderStatus)
    (image : BitmapData.t) (encodeOptions : EncoderOptions.t)
    (colorInfo : ColorConversionInfo)
    (outputAllocator compressedColorImage : pointer) (compressedAlphaImage : nat)
    (world : World)
    (aomFormat : aom_img_fmt) (fresh : aom_image.t) (rest : list (option aom_image.t)) :
  aomFormat_of (EncoderOptions.yuvFormat encodeOptions) = Some aomFormat ->
  aom_allocs world = Some fresh :: rest ->
  rest = [] \/ (exists rest', rest = None :: rest') ->
  let result :=
    CompressWithAOM _ GetYUVCoefficiants CompressAOMImages image encodeOptions colorInfo
      outputAllocator compressedColorImage (Some compressedAlphaImage) world in
  let w := BitmapData.width image in
  let h := BitmapData.height image in
  result.1 = OutOfMemory /\
  (exists color,
     (ConvertColorToAOMImage GetYUVCoefficiants image colorInfo
        (EncoderOptions.yuvFormat encodeOptions) aomFormat world).1 = Some color /\
     trace result.2 =
       trace world ++ [EvImgAlloc aomFormat w h 16 true;
                       EvImgAlloc AOM_IMG_FMT_I420 w h 16 false;
                       EvImgFree color]) /\
  img_allocations (trace result.2) = img_allocations (trace world) + 1 /\
  img_frees (trace result.2) = img_frees (trace world) + 1.
Proof.
  intros Hfmt Hallocs Hfail result w h.
  destruct (ConvertColorToAOMImage_succeeds GetYUVCoefficiants image colorInfo
              (EncoderOptions.yuvFormat encodeOptions) aomFormat world fresh rest Hallocs)
    as [color Hcolor].
  assert (result =
          (OutOfMemory,
           mkWorld (progress world) (tail rest)
             (trace world ++ [EvImgAlloc aomFormat w h 16 true;
                              EvImgAlloc AOM_IMG_FMT_I420 w h 16 false;
                              EvImgFree color]))) as ->.
  { subst result. unfold CompressWithAOM. rewrite Hfmt.
    unfold bind at 1. rewrite Hcolor.
    unfold ScopedAOMImage_scope, ConvertAlphaToAOMImage, bind.
    rewrite aom_img_alloc_fails by done. simpl.
    by rewrite <- !app_assoc. }
  split; [done|]. split; [exists color; by rewrite Hcolor|].
  cbn [fst snd trace]. rewrite img_allocations_app, img_frees_app. done.
Qed.

Lemma C9_color_image_released_when_alpha_allocation_fails_witness :
  let result :=
    CompressWithAOM _ bt601_lookup sample_encoder
      raster_3x3 (EncoderOptions.mk IdentityMatrix []) tt
      (Some 1) (Some 2) (Some 3)
      (sample_world patient_host [Some fresh_I444_3x3; None]) in
  result.1 = OutOfMemory /\
  img_allocations (trace result.2) = 1 /\ img_frees (trace result.2) = 1.
Proof.
  intros result.
  destruct (C9_color_image_released_when_alpha_allocation_fails unit bt601_lookup
              sample_encoder raster_3x3 (EncoderOptions.mk IdentityMatrix []) tt
              (Some 1) (Some 2) 3
              (sample_world patient_host [Some fresh_I444_3x3; None])
              AOM_IMG_FMT_I444 fresh_I444_3x3 [None])
    as (Hstatus & _ & Hallocs & Hfrees).
  - reflexivity.
  - reflexivity.
  - right. exists []. reflexivity.
  - split; [exact Hstatus|]. split; [exact Hallocs | exact Hfrees].
Defined.

(** * Further properties of the converters *)

(** X1.  Normalizing a byte as [ColorToYUV8] does (the byte as a float,
    over 255) and quantizing the result as luma gives the byte back, for
    each of the 256 bytes. *)
Theorem X1_byte_normalize_quantize_round_trip (b : Z) :
  (0 <= b < 256)%Z ->
  yuvToUNorm ChanY (F32.div (F32.of_Z b) F32.c255) = b.
Proof.
  intros Hb.
  pose proof byte_round_trip_checked as Hall.
  rewrite forallb_forall in Hall.
  specialize (Hall (Z.to_nat b)).
  rewrite Z2Nat.id in Hall by lia.
  apply Z.eqb_eq, Hall, in_seq. lia.
Qed.

Lemma X1_byte_normalize_quantize_round_trip_witness :
  yuvToUNorm ChanY (F32.div (F32.of_Z 200) F32.c255) = 200%Z.
Proof. apply X1_byte_normalize_quantize_round_trip. lia. Defined.

(** X2.  [yuvToUNorm] saturates: a value that, after the bias of 0.5 for the
    chroma channels, compares below 0 gives 0, and one that compares above 1
    gives 255. *)
Theorem X2_yuvToUNorm_saturates (chan : YuvChannel) (v : float) :
  let biased := match chan with ChanY => v | _ => F32.add v F32.half end in
  (F32.ltb biased F32.zero = true -> yuvToUNorm chan v = 0%Z) /\
  (F32.ltb biased F32.zero = false -> F32.ltb F32.one biased = true ->
   yuvToUNorm chan v = 255%Z).
Proof.
  intros biased. unfold yuvToUNorm. fold biased. split.
  - intros ->. by vm_compute.
  - intros -> ->. by vm_compute.
Qed.

Lemma X2_yuvToUNorm_saturates_witness :
  yuvToUNorm ChanU (F32.of_Z (-3)) = 0%Z /\ yuvToUNorm ChanY (F32.of_Z 7) = 255%Z.
Proof.
  split.
  - apply (X2_yuvToUNorm_saturates ChanU (F32.of_Z (-3))). reflexivity.
  - apply (X2_yuvToUNorm_saturates ChanY (F32.of_Z 7)); reflexivity.
Defined.

(** X3.  Under 4:4:4, with chroma rows at least as long as the raster's, the
    U and V planes hold at every pixel the quantized chroma of that pixel:
    no averaging, full resolution. *)
Theorem X3_full_resolution_chroma_under_444
    (ColorConversionInfo : Type)
    (GetYUVCoefficiants : ColorConversionInfo -> YUVCoefficiants.t)
    (bgraImage : BitmapData.t) (colorInfo : ColorConversionInfo)
    (yPlane0 uPlane0 vPlane0 : list Z) (ys us vs x y : nat) :
  BitmapData.width bgraImage <= us -> BitmapData.width bgraImage <= vs ->
  x < BitmapData.width bgraImage -> y < BitmapData.height bgraImage ->
  x + y * us < length uPlane0 -> x + y * vs < length vPlane0 ->
  let planes := ColorToYUV8 GetYUVCoefficiants bgraImage colorInfo Subsampling444
                  yPlane0 ys uPlane0 us vPlane0 vs in
  let yuv := pixelYUV (GetYUVCoefficiants colorInfo) bgraImage (x, y) in
  planes.1.2 !! (x + y * us) = Some (yuvToUNorm ChanU (YUVBlock.u yuv)) /\
  planes.2 !! (x + y * vs) = Some (yuvToUNorm ChanV (YUVBlock.v yuv)).
Proof.
  intros Hus Hvs Hx Hy HlenU HlenV planes yuv.
  by apply (ColorToYUV8_444_chroma_at GetYUVCoefficiants colorInfo bgraImage ys us vs
              (mkConv yuvBlock_init yPlane0 uPlane0 vPlane0) x y).
Qed.

Lemma X3_full_resolution_chroma_under_444_witness :
  (ColorToYUV8 bt601_lookup raster_3x3 tt Subsampling444
     (replicate 12 0%Z) 4 (replicate 12 0%Z) 4 (replicate 12 0%Z) 4).1.2 !! (2 + 1 * 4) =
  Some (yuvToUNorm ChanU (YUVBlock.u (pixelYUV bt601 raster_3x3 (2, 1)))).
Proof.
  apply (X3_full_resolution_chroma_under_444 unit bt601_lookup raster_3x3 tt
           (replicate 12 0%Z) (replicate 12 0%Z) (replicate 12 0%Z) 4 4 4 2 1);
    simpl; lia.
Defined.

(** X4.  The planes [ColorToYUV8] returns do not depend on what its local
    array [yuvBlock] held before the loops: no cell of it is read before it
    is written in the same block. *)
Theorem X4_result_independent_of_uninitialised_block
    (ColorConversionInfo : Type)
    (GetYUVCoefficiants : ColorConversionInfo -> YUVCoefficiants.t)
    (bgraImage : BitmapData.t) (colorInfo : ColorConversionInfo)
    (mode : YUVChromaSubsampling)
    (garbage : YUVBlockArray)
    (yPlane0 uPlane0 vPlane0 : list Z) (ys us vs : nat) :
  let s := ColorToYUV8_loops _ GetYUVCoefficiants bgraImage colorInfo mode ys us vs
             (mkConv garbage yPlane0 uPlane0 vPlane0) in
  (yPlane s, uPlane s, vPlane s) =
  ColorToYUV8 GetYUVCoefficiants bgraImage colorInfo mode
    yPlane0 ys uPlane0 us vPlane0 vs.
Proof.
  intros s. subst s. unfold ColorToYUV8.
  destruct (ColorToYUV8_loops_init_irrelevant GetYUVCoefficiants colorInfo bgraImage
              ys us vs mode garbage yuvBlock_init yPlane0 uPlane0 vPlane0)
    as (-> & -> & ->).
  done.
Qed.

(** X5.  In every mode [ColorToYUV8] keeps the lengths of the three planes,
    and a luma byte whose index is that of no pixel (row padding, rows
    below the raster) is as before. *)
Theorem X5_luma_stores_only_at_pixels
    (ColorConversionInfo : Type)
    (GetYUVCoefficiants : ColorConversionInfo -> YUVCoefficiants.t)
    (bgraImage : BitmapData.t) (colorInfo : ColorConversionInfo)
    (mode : YUVChromaSubsampling)
    (yPlane0 uPlane0 vPlane0 : list Z) (ys us vs k : nat) :
  let planes := ColorToYUV8 GetYUVCoefficiants bgraImage colorInfo mode
                  yPlane0 ys uPlane0 us vPlane0 vs in
  (length planes.1.1 = length yPlane0 /\
   length planes.1.2 = length uPlane0 /\
   length planes.2 = length vPlane0) /\
  ((forall x y, x < BitmapData.width bgraImage -> y < BitmapData.height bgraImage ->
      k <> x + y * ys) ->
   planes.1.1 !! k = yPlane0 !! k).
Proof.
  intros planes. subst planes. unfold ColorToYUV8. cbn [fst snd]. split.
  - apply (ColorToYUV8_loops_lengths GetYUVCoefficiants colorInfo bgraImage ys us vs
             mode (mkConv yuvBlock_init yPlane0 uPlane0 vPlane0)).
  - intros Hk.
    apply (ColorToYUV8_loops_untouched GetYUVCoefficiants colorInfo bgraImage ys us vs
             yPlane _ mode (mkConv yuvBlock_init yPlane0 uPlane0 vPlane0) k
             (fun X Y t HX HY =>
                convertBlock_yPlane GetYUVCoefficiants colorInfo bgraImage ys us vs
                  mode X Y t HX HY)).
    intros bx bj v Hbx Hbj Hin.
    apply list_elem_of_fmap in Hin as ([x y] & Heq & Hp).
    apply elem_of_blockSamples in Hp as (Hx & Hy & _). simpl in *.
    inversion Heq as [[Hidx Hv]]. by apply (Hk x y).
Qed.

Lemma X5_luma_stores_only_at_pixels_witness :
  (ColorToYUV8 bt601_lookup raster_3x3 tt Subsampling420
     (replicate 12 7%Z) 4 (replicate 4 0%Z) 2 (replicate 4 0%Z) 2).1.1 !! 7 = Some 7%Z.
Proof.
  apply (X5_luma_stores_only_at_pixels unit bt601_lookup raster_3x3 tt Subsampling420
           (replicate 12 7%Z) (replicate 4 0%Z) (replicate 4 0%Z) 4 2 2 7).
  intros x y Hx Hy. simpl in Hx, Hy. lia.
Defined.

(** X6.  Under 4:2:0 a chroma byte whose index is that of no block, and
    under 4:2:2 one whose index is that of no block column and row, is as
    before. *)
Theorem X6_subsampled_chroma_stores_only_at_blocks
    (ColorConversionInfo : Type)
    (GetYUVCoefficiants : ColorConversionInfo -> YUVCoefficiants.t)
    (bgraImage : BitmapData.t) (colorInfo : ColorConversionInfo)
    (yPlane0 uPlane0 vPlane0 : list Z) (ys us vs k : nat) :
  let w := BitmapData.width bgraImage in
  let h := BitmapData.height bgraImage in
  let run mode := ColorToYUV8 GetYUVCoefficiants bgraImage colorInfo mode
                    yPlane0 ys uPlane0 us vPlane0 vs in
  ((forall bx bj, 2 * bx < w -> 2 * bj < h -> k <> bx + bj * us) ->
   (run Subsampling420).1.2 !! k = uPlane0 !! k) /\
  ((forall bx bj, 2 * bx < w -> 2 * bj < h -> k <> bx + bj * vs) ->
   (run Subsampling420).2 !! k = vPlane0 !! k) /\
  ((forall bx y, 2 * bx < w -> y < h -> k <> bx + y * us) ->
   (run Subsampling422).1.2 !! k = uPlane0 !! k) /\
  ((forall bx y, 2 * bx < w -> y < h -> k <> bx + y * vs) ->
   (run Subsampling422).2 !! k = vPlane0 !! k).
Proof.
  intros w h run. subst run. unfold ColorToYUV8. cbn [fst snd].
  set (s0 := mkConv yuvBlock_init yPlane0 uPlane0 vPlane0).
  repeat split; intros Hk.
  - apply (ColorToYUV8_loops_untouched GetYUVCoefficiants colorInfo bgraImage ys us vs
             uPlane _ Subsampling420 s0 k
             (fun X Y t HX HY =>
                proj1 (convertBlock_420_chroma GetYUVCoefficiants colorInfo bgraImage
                         ys us vs X Y t HX HY))).
    intros bx bj v Hbx Hbj Hin. rewrite !shiftr_double in Hin.
    apply list_elem_of_singleton in Hin. inversion Hin. by apply (Hk bx bj).
  - apply (ColorToYUV8_loops_untouched GetYUVCoefficiants colorInfo bgraImage ys us vs
             vPlane _ Subsampling420 s0 k
             (fun X Y t HX HY =>
                proj2 (convertBlock_420_chroma GetYUVCoefficiants colorInfo bgraImage
                         ys us vs X Y t HX HY))).
    intros bx bj v Hbx Hbj Hin. rewrite !shiftr_double in Hin.
    apply list_elem_of_singleton in Hin. inversion Hin. by apply (Hk bx bj).
  - apply (ColorToYUV8_loops_untouched GetYUVCoefficiants colorInfo bgraImage ys us vs
             uPlane _ Subsampling422 s0 k
             (fun X Y t HX HY =>
                proj1 (convertBlock_422_chroma GetYUVCoefficiants colorInfo bgraImage
                         ys us vs X Y t HX HY))).
    intros bx bj v Hbx Hbj Hin. rewrite shiftr_double in Hin.
    apply list_elem_of_fmap in Hin as (y & Heq & Hy).
    apply elem_of_blockRows in Hy as (Hy & _).
    inversion Heq. by apply (Hk bx y).
  - apply (ColorToYUV8_loops_untouched GetYUVCoefficiants colorInfo bgraImage ys us vs
             vPlane _ Subsampling422 s0 k
             (fun X Y t HX HY =>
                proj2 (convertBlock_422_chroma GetYUVCoefficiants colorInfo bgraImage
                         ys us vs X Y t HX HY))).
    intros bx bj v Hbx Hbj Hin. rewrite shiftr_double in Hin.
    apply list_elem_of_fmap in Hin as (y & Heq & Hy).
    apply elem_of_blockRows in Hy as (Hy & _).
    inversion Heq. by apply (Hk bx y).
Qed.

Lemma X6_subsampled_chroma_stores_only_at_blocks_witness :
  (ColorToYUV8 bt601_lookup raster_3x3 tt Subsampling420
     (replicate 12 0%Z) 4 (replicate 16 7%Z) 8 (replicate 16 7%Z) 8).1.2 !! 2 = Some 7%Z.
Proof.
  apply (X6_subsampled_chroma_stores_only_at_blocks unit bt601_lookup raster_3x3 tt
           (replicate 12 0%Z) (replicate 16 7%Z) (replicate 16 7%Z) 4 8 8 2).
  intros bx bj Hbx Hbj. simpl in Hbx, Hbj. lia.
Defined.

(** X7.  For [Subsampling400] the color image [ConvertColorToAOMImage]
    returns has the U and V planes of the allocator's image, byte for byte,
    and its monochrome flag; only the range is set, to full range. *)
Theorem X7_color_image_under_400_keeps_allocator_chroma
    (ColorConversionInfo : Type)
    (GetYUVCoefficiants : ColorConversionInfo -> YUVCoefficiants.t)
    (bgraImage : BitmapData.t) (colorInfo : ColorConversionInfo)
    (aomFormat : aom_img_fmt)
    (world : World) (fresh : aom_image.t) (rest : list (option aom_image.t)) :
  aom_allocs world = Some fresh :: rest ->
  exists color,
    (ConvertColorToAOMImage GetYUVCoefficiants bgraImage colorInfo Subsampling400
       aomFormat world).1 = Some color /\
    aom_image.plane_U color = aom_image.plane_U fresh /\
    aom_image.plane_V color = aom_image.plane_V fresh /\
    aom_image.monochrome color = aom_image.monochrome fresh /\
    aom_image.range color = AOM_CR_FULL_RANGE.
Proof.
  intros Hallocs. unfold ConvertColorToAOMImage, bind.
  rewrite (aom_img_alloc_succeeds _ _ _ _ _ _ _ Hallocs).
  destruct (ColorToYUV8 _ _ _ _ _ _ _ _ _ _) as [[py pu] pv] eqn:Hplanes.
  assert (pu = aom_image.plane_U fresh /\ pv = aom_image.plane_V fresh) as [-> ->].
  { destruct (ColorToYUV8_loops_no_chroma GetYUVCoefficiants colorInfo bgraImage
                Subsampling400
                (aom_image.stride_Y (aom_image.set_range fresh AOM_CR_FULL_RANGE))
                (aom_image.stride_U (aom_image.set_range fresh AOM_CR_FULL_RANGE))
                (aom_image.stride_V (aom_image.set_range fresh AOM_CR_FULL_RANGE))
                (mkConv yuvBlock_init
                   (aom_image.plane_Y (aom_image.set_range fresh AOM_CR_FULL_RANGE))
                   (aom_image.plane_U (aom_image.set_range fresh AOM_CR_FULL_RANGE))
                   (aom_image.plane_V (aom_image.set_range fresh AOM_CR_FULL_RANGE)))
                eq_refl eq_refl eq_refl) as [HU HV].
    unfold ColorToYUV8 in Hplanes. injection Hplanes as _ Hu Hv.
    rewrite <- Hu, <- Hv. split; [exact HU | exact HV]. }
  eexists. split; [reflexivity|]. done.
Qed.

Lemma X7_color_image_under_400_keeps_allocator_chroma_witness :
  exists color,
    (ConvertColorToAOMImage bt601_lookup raster_2x3 tt Subsampling400 AOM_IMG_FMT_I420
       (sample_world patient_host [Some fresh_I420_2x3])).1 = Some color /\
    aom_image.plane_U color = replicate 16 205%Z /\
    aom_image.plane_V color = replicate 16 205%Z /\
    aom_image.monochrome color = 0%Z /\
    aom_image.range color = AOM_CR_FULL_RANGE.
Proof.
  apply (X7_color_image_under_400_keeps_allocator_chroma unit bt601_lookup raster_2x3 tt
           AOM_IMG_FMT_I420 (sample_world patient_host [Some fresh_I420_2x3])
           fresh_I420_2x3 []).
  reflexivity.
Defined.

(** X8.  [AlphaToY8] keeps the length of the plane, and a byte whose index
    is that of no pixel is as before. *)
Theorem X8_alpha_stores_only_at_pixels
    (bgraImage : BitmapData.t) (yPlane0 : list Z) (yPlaneStride k : nat) :
  length (AlphaToY8 bgraImage yPlane0 yPlaneStride) = length yPlane0 /\
  ((forall x y, x < BitmapData.width bgraImage -> y < BitmapData.height bgraImage ->
      k <> x + y * yPlaneStride) ->
   AlphaToY8 bgraImage yPlane0 yPlaneStride !! k = yPlane0 !! k).
Proof.
  split; [apply AlphaToY8_length | apply AlphaToY8_untouched].
Qed.

Lemma X8_alpha_stores_only_at_pixels_witness :
  AlphaToY8 raster_3x3 (replicate 12 7%Z) 4 !! 3 = Some 7%Z.
Proof.
  apply (X8_alpha_stores_only_at_pixels raster_3x3 (replicate 12 7%Z) 4 3).
  intros x y Hx Hy. simpl in Hx, Hy. lia.
Defined.



(** X10.  Each converter returns null exactly when the allocator fails; it
    has then asked once, for the raster's size with alignment 16 (the color
    converter in the format it was given, the alpha converter in I420), and
    done nothing else. *)
Theorem X10_converters_return_null_iff_allocation_fails
    (ColorConversionInfo : Type)
    (GetYUVCoefficiants : ColorConversionInfo -> YUVCoefficiants.t)
    (bgraImage : BitmapData.t) (colorInfo : ColorConversionInfo)
    (yuvFormat : YUVChromaSubsampling) (aomFormat : aom_img_fmt) (world : World) :
  let w := BitmapData.width bgraImage in
  let h := BitmapData.height bgraImage in
  let color := ConvertColorToAOMImage GetYUVCoefficiants bgraImage colorInfo
                 yuvFormat aomFormat world in
  let alpha := ConvertAlphaToAOMImage bgraImage world in
  (color.1 = None <-> next_alloc_fails world) /\
  (alpha.1 = None <-> next_alloc_fails world) /\
  (next_alloc_fails world ->
   color.2 = with_events world (tail (aom_allocs world))
               [EvImgAlloc aomFormat w h 16 false] /\
   alpha.2 = with_events world (tail (aom_allocs world))
               [EvImgAlloc AOM_IMG_FMT_I420 w h 16 false]).
Proof.
  intros w h color alpha. subst color alpha.
  destruct (next_alloc_cases world) as [Hfail|(fresh & rest & Hallocs)].
  - rewrite ConvertColorToAOMImage_fails, ConvertAlphaToAOMImage_fails by done.
    repeat split; auto.
  - assert (~ next_alloc_fails world) as Hok.
    { unfold next_alloc_fails. rewrite Hallocs. intros [H|[r H]]; discriminate H. }
    destruct (ConvertColorToAOMImage_succeeds GetYUVCoefficiants bgraImage colorInfo
                yuvFormat aomFormat world fresh rest Hallocs) as [c ->].
    rewrite (ConvertAlphaToAOMImage_succeeds _ _ _ _ Hallocs).
    repeat split; try done; intros H; discriminate H.
Qed.

Lemma X10_converters_return_null_iff_allocation_fails_witness :
  (ConvertAlphaToAOMImage raster_2x3 (sample_world patient_host [None])).2 =
  mkWorld patient_host [] [EvImgAlloc AOM_IMG_FMT_I420 2 3 16 false].
Proof.
  apply (X10_converters_return_null_iff_allocation_fails unit bt601_lookup raster_2x3 tt
           Subsampling420 AOM_IMG_FMT_I420 (sample_world patient_host [None])).
  right. exists []. reflexivity.
Defined.

(** * Further properties of the compression entry point *)

(** X11.  With a known subsampling mode, when the allocator fails for the
    color image [CompressWithAOM] returns [OutOfMemory] having asked the
    allocator once, in the format of the mode: no second request, nothing
    released, the encoder not called. *)
Theorem X11_color_allocation_failure_is_out_of_memory
    (ColorConversionInfo : Type)
    (GetYUVCoefficiants : ColorConversionInfo -> YUVCoefficiants.t)
    (CompressAOMImages :
       aom_image.t -> option aom_image.t -> EncoderOptions.t ->
       pointer -> pointer -> pointer -> M EncoderStatus)
    (image : BitmapData.t) (encodeOptions : EncoderOptions.t)
    (colorInfo : ColorConversionInfo)
    (outputAllocator compressedColorImage compressedAlphaImage : pointer)
    (world : World) (aomFormat : aom_img_fmt) :
  aomFormat_of (EncoderOptions.yuvFormat encodeOptions) = Some aomFormat ->
  next_alloc_fails world ->
  CompressWithAOM _ GetYUVCoefficiants CompressAOMImages image encodeOptions colorInfo
    outputAllocator compressedColorImage compressedAlphaImage world
  = (OutOfMemory,
     with_events world (tail (aom_allocs world))
       [EvImgAlloc aomFormat (BitmapData.width image) (BitmapData.height image)
          16 false]).
Proof.
  intros Hfmt Hfail. unfold CompressWithAOM. rewrite Hfmt.
  unfold bind at 1. by rewrite ConvertColorToAOMImage_fails.
Qed.

Lemma X11_color_allocation_failure_is_out_of_memory_witness :
  CompressWithAOM _ bt601_lookup sample_encoder
    raster_2x3 (EncoderOptions.mk Subsampling422 []) tt (Some 1) (Some 2) (Some 3)
    (sample_world patient_host [None; Some fresh_I420_2x3])
  = (OutOfMemory,
     mkWorld patient_host [Some fresh_I420_2x3]
       [EvImgAlloc AOM_IMG_FMT_I422 2 3 16 false]).
Proof.
  apply (X11_color_allocation_failure_is_out_of_memory unit bt601_lookup sample_encoder
           raster_2x3 (EncoderOptions.mk Subsampling422 []) tt (Some 1) (Some 2) (Some 3)
           (sample_world patient_host [None; Some fresh_I420_2x3]) AOM_IMG_FMT_I422).
  - reflexivity.
  - right. exists [Some fresh_I420_2x3]. reflexivity.
Defined.

(** X12.  With an alpha output requested and both allocations succeeding,
    [CompressWithAOM] calls the encoder once, on the two converted images,
    after the two allocator calls (the color image in the format of the
    mode, the alpha image in I420); it returns the encoder's status as it
    is, and releases the alpha image and then the color image after the
    encoder has returned, whatever that status. *)
Theorem X12_encoder_status_passed_on_and_both_images_released
    (ColorConversionInfo : Type)
    (GetYUVCoefficiants : ColorConversionInfo -> YUVCoefficiants.t)
    (CompressAOMImages :
       aom_image.t -> option aom_image.t -> EncoderOptions.t ->
       pointer -> pointer -> pointer -> M EncoderStatus)
    (image : BitmapData.t) (encodeOptions : EncoderOptions.t)
    (colorInfo : ColorConversionInfo)
    (outputAllocator compressedColorImage : pointer) (compressedAlphaImage : nat)
    (world : World) (aomFormat : aom_img_fmt)
    (freshColor freshAlpha : aom_image.t) (rest : list (option aom_image.t)) :
  aomFormat_of (EncoderOptions.yuvFormat encodeOptions) = Some aomFormat ->
  aom_allocs world = Some freshColor :: Some freshAlpha :: rest ->
  let w := BitmapData.width image in
  let h := BitmapData.height image in
  exists color alpha,
    (ConvertColorToAOMImage GetYUVCoefficiants image colorInfo
       (EncoderOptions.yuvFormat encodeOptions) aomFormat world).1 = Some color /\
    (ConvertAlphaToAOMImage image
       (mkWorld (progress world) (Some freshAlpha :: rest) (trace world))).1
      = Some alpha /\
    let atEncoder :=
      with_events world rest
        [EvImgAlloc aomFormat w h 16 true;
         EvImgAlloc AOM_IMG_FMT_I420 w h 16 true;
         EvCompress color (Some alpha)] in
    let encoded :=
      CompressAOMImages color (Some alpha) encodeOptions
        outputAllocator compressedColorImage (Some compressedAlphaImage) atEncoder in
    CompressWithAOM _ GetYUVCoefficiants CompressAOMImages image encodeOptions colorInfo
      outputAllocator compressedColorImage (Some compressedAlphaImage) world
    = (encoded.1,
       with_events encoded.2 (aom_allocs encoded.2) [EvImgFree alpha; EvImgFree color]).
Proof.
  intros Hfmt Hallocs w h.
  destruct (ConvertColorToAOMImage_succeeds GetYUVCoefficiants image colorInfo
              (EncoderOptions.yuvFormat encodeOptions) aomFormat world freshColor
              (Some freshAlpha :: rest) Hallocs) as [color Hcolor].
  exists color. eexists. split; [by rewrite Hcolor|].
  split; [by rewrite (ConvertAlphaToAOMImage_succeeds image _ freshAlpha rest)|].
  intros atEncoder encoded.
  unfold CompressWithAOM. rewrite Hfmt. unfold bind at 1. rewrite Hcolor.
  unfold ScopedAOMImage_scope at 1. unfold bind at 1. unfold bind at 1.
  rewrite (ConvertAlphaToAOMImage_succeeds image _ freshAlpha rest) by reflexivity.
  unfold ScopedAOMImage_scope, call_CompressAOMImages, bind, emit, with_events.
  cbn [progress aom_allocs trace].
  subst encoded atEncoder. unfold with_events. rewrite <- !app_assoc. cbn [app].
  destruct (CompressAOMImages _ _ _ _ _ _ _) as [status w'].
  cbn [fst snd aom_image_deleter aom_img_free emit ret progress aom_allocs trace].
  by rewrite <- !app_assoc.
Qed.

Lemma X12_encoder_status_passed_on_and_both_images_released_witness :
  let result :=
    CompressWithAOM _ bt601_lookup failing_encoder
      raster_2x3 (EncoderOptions.mk Subsampling420 []) tt (Some 1) (Some 2) (Some 3)
      (sample_world patient_host [Some fresh_I420_2x3; Some fresh_I420_2x3]) in
  exists color alpha,
    result =
    (StatusOther 5,
     mkWorld patient_host []
       [EvImgAlloc AOM_IMG_FMT_I420 2 3 16 true;
        EvImgAlloc AOM_IMG_FMT_I420 2 3 16 true;
        EvCompress color (Some alpha);
        EvImgFree alpha; EvImgFree color]).
Proof.
  intros result.
  destruct (X12_encoder_status_passed_on_and_both_images_released unit bt601_lookup
              failing_encoder raster_2x3 (EncoderOptions.mk Subsampling420 []) tt
              (Some 1) (Some 2) 3
              (sample_world patient_host [Some fresh_I420_2x3; Some fresh_I420_2x3])
              AOM_IMG_FMT_I420 fresh_I420_2x3 fresh_I420_2x3 [])
    as (color & alpha & _ & _ & Hresult); [reflexivity | reflexivity |].
  exists color, alpha. exact Hresult.
Defined.

(** X13.  With no alpha output requested and the color allocation
    succeeding, [CompressWithAOM] asks the allocator once only, calls the
    encoder with a null alpha image, returns its status as it is and
    releases the color image afterwards. *)
Theorem X13_no_alpha_image_without_alpha_output
    (ColorConversionInfo : Type)
    (GetYUVCoefficiants : ColorConversionInfo -> YUVCoefficiants.t)
    (CompressAOMImages :
       aom_image.t -> option aom_image.t -> EncoderOptions.t ->
       pointer -> pointer -> pointer -> M EncoderStatus)
    (image : BitmapData.t) (encodeOptions : EncoderOptions.t)
    (colorInfo : ColorConversionInfo)
    (outputAllocator compressedColorImage : pointer)
    (world : World) (aomFormat : aom_img_fmt)
    (freshColor : aom_image.t) (rest : list (option aom_image.t)) :
  aomFormat_of (EncoderOptions.yuvFormat encodeOptions) = Some aomFormat ->
  aom_allocs world = Some freshColor :: rest ->
  exists color,
    (ConvertColorToAOMImage GetYUVCoefficiants image colorInfo
       (EncoderOptions.yuvFormat encodeOptions) aomFormat world).1 = Some color /\
    let atEncoder :=
      with_events world rest
        [EvImgAlloc aomFormat (BitmapData.width image) (BitmapData.height image) 16 true;
         EvCompress color None] in
    let encoded :=
      CompressAOMImages color None encodeOptions
        outputAllocator compressedColorImage None atEncoder in
    CompressWithAOM _ GetYUVCoefficiants CompressAOMImages image encodeOptions colorInfo
      outputAllocator compressedColorImage None world
    = (encoded.1, with_events encoded.2 (aom_allocs encoded.2) [EvImgFree color]).
Proof.
  intros Hfmt Hallocs.
  destruct (ConvertColorToAOMImage_succeeds GetYUVCoefficiants image colorInfo
              (EncoderOptions.yuvFormat encodeOptions) aomFormat world freshColor
              rest Hallocs) as [color Hcolor].
  exists color. split; [by rewrite Hcolor|].
  intros atEncoder encoded.
  unfold CompressWithAOM. rewrite Hfmt. unfold bind at 1. rewrite Hcolor.
  unfold ScopedAOMImage_scope, call_CompressAOMImages, bind, emit, ret, with_events.
  cbn [progress aom_allocs trace].
  subst encoded atEncoder. unfold with_events. rewrite <- !app_assoc. cbn [app].
  destruct (CompressAOMImages _ _ _ _ _ _ _) as [status w'].
  reflexivity.
Qed.

Lemma X13_no_alpha_image_without_alpha_output_witness :
  exists color,
    CompressWithAOM _ bt601_lookup sample_encoder
      raster_2x3 (EncoderOptions.mk Subsampling420 []) tt (Some 1) (Some 2) None
      (sample_world patient_host [Some fresh_I420_2x3; Some fresh_I420_2x3])
    = (StatusOther 0,
       mkWorld patient_host [Some fresh_I420_2x3]
         [EvImgAlloc AOM_IMG_FMT_I420 2 3 16 true;
          EvCompress color None;
          EvImgFree color]).
Proof.
  destruct (X13_no_alpha_image_without_alpha_output unit bt601_lookup sample_encoder
              raster_2x3 (EncoderOptions.mk Subsampling420 []) tt (Some 1) (Some 2)
              (sample_world patient_host [Some fresh_I420_2x3; Some fresh_I420_2x3])
              AOM_IMG_FMT_I420 fresh_I420_2x3 [Some fresh_I420_2x3])
    as (color & _ & Hresult); [reflexivity | reflexivity |].
  exists color. exact Hresult.
Defined.

(** X14.  With an encoder that neither takes images from the allocator nor
    gives any back, every call of [CompressImage] (null parameters,
    cancellation, unknown mode, either allocation failing, the encoder
    failing or succeeding) gives back exactly as many images as it was
    handed: none outlives the call. *)
Theorem X14_no_image_outlives_the_call
    (ColorConversionInfo : Type)
    (GetYUVCoefficiants : ColorConversionInfo -> YUVCoefficiants.t)
    (CompressAOMImages :
       aom_image.t -> option aom_image.t -> EncoderOptions.t ->
       pointer -> pointer -> pointer -> M EncoderStatus)
    (image : option BitmapData.t) (encodeOptions : option EncoderOptions.t)
    (progressContext : option unit) (colorInfo : ColorConversionInfo)
    (outputAllocator compressedColorImage compressedAlphaImage : pointer)
    (world : World) :
  encoder_keeps_images CompressAOMImages ->
  images_balanced world
    (CompressImage _ GetYUVCoefficiants CompressAOMImages
       image encodeOptions progressContext colorInfo
       outputAllocator compressedColorImage compressedAlphaImage world).2.
Proof.
  intros Hencoder. unfold CompressImage.
  destruct image as [img|], encodeOptions as [opts|], progressContext as [ctx|],
           outputAllocator as [alloc|], compressedColorImage as [out|];
    try apply images_balanced_refl.
  unfold bind. rewrite report_progress_eq.
  assert (forall w', images_balanced (after_progress world) w' ->
                     images_balanced world w') as Hstep.
  { unfold images_balanced, after_progress. cbn [trace]. intros w'.
    rewrite img_allocations_app, img_frees_app.
    unfold img_allocations at 3, img_frees at 2. simpl. lia. }
  apply Hstep.
  destruct (progress_answer world); cbn [negb].
  - by apply CompressWithAOM_balanced.
  - apply images_balanced_refl.
Qed.

Lemma X14_no_image_outlives_the_call_witness :
  let result :=
    CompressImage _ bt601_lookup failing_encoder
      (Some raster_2x3) (Some (EncoderOptions.mk Subsampling444 [])) (Some tt) tt
      (Some 1) (Some 2) (Some 3)
      (sample_world patient_host [Some fresh_I420_2x3; Some fresh_I420_2x3]) in
  img_allocations (trace result.2) = 2 /\ img_frees (trace result.2) = 2.
Proof.
  intros result.
  assert (img_allocations (trace result.2) + 0 = img_frees (trace result.2) + 0)
    as Hbalanced.
  { apply (X14_no_image_outlives_the_call unit bt601_lookup failing_encoder
             (Some raster_2x3) (Some (EncoderOptions.mk Subsampling444 [])) (Some tt) tt
             (Some 1) (Some 2) (Some 3)
             (sample_world patient_host [Some fresh_I420_2x3; Some fresh_I420_2x3])).
    intros color alpha options p1 p2 p3 world. split; reflexivity. }
  assert (img_allocations (trace result.2) = 2) as Hallocs by reflexivity.
  lia.
Defined.

(** X15.  The color image [ConvertColorToAOMImage] makes of the allocator's
    image keeps its format, size and strides, has full range, and, when the
    luma stride is at least the raster's width, holds at every pixel that
    lies in the luma plane the quantized luma of that pixel, in every
    mode. *)
Theorem X15_color_image_layout_and_luma
    (ColorConversionInfo : Type)
    (GetYUVCoefficiants : ColorConversionInfo -> YUVCoefficiants.t)
    (bgraImage : BitmapData.t) (colorInfo : ColorConversionInfo)
    (yuvFormat : YUVChromaSubsampling) (aomFormat : aom_img_fmt)
    (world : World) (fresh : aom_image.t) (rest : list (option aom_image.t))
    (x y : nat) :
  aom_allocs world = Some fresh :: rest ->
  exists color,
    (ConvertColorToAOMImage GetYUVCoefficiants bgraImage colorInfo yuvFormat
       aomFormat world).1 = Some color /\
    (aom_image.fmt color = aom_image.fmt fresh /\
     aom_image.d_w color = aom_image.d_w fresh /\
     aom_image.d_h color = aom_image.d_h fresh /\
     aom_image.stride_Y color = aom_image.stride_Y fresh /\
     aom_image.stride_U color = aom_image.stride_U fresh /\
     aom_image.stride_V color = aom_image.stride_V fresh /\
     aom_image.range color = AOM_CR_FULL_RANGE) /\
    (BitmapData.width bgraImage <= aom_image.stride_Y fresh ->
     x < BitmapData.width bgraImage -> y < BitmapData.height bgraImage ->
     x + y * aom_image.stride_Y fresh < length (aom_image.plane_Y fresh) ->
     aom_image.plane_Y color !! (x + y * aom_image.stride_Y fresh) =
     Some (yuvToUNorm ChanY
             (YUVBlock.y (pixelYUV (GetYUVCoefficiants colorInfo) bgraImage (x, y))))).
Proof.
  intros Hallocs. unfold ConvertColorToAOMImage, bind.
  rewrite (aom_img_alloc_succeeds _ _ _ _ _ _ _ Hallocs).
  destruct (ColorToYUV8 _ _ _ _ _ _ _ _ _ _) as [[py pu] pv] eqn:Hplanes.
  eexists. split; [reflexivity|]. split; [done|].
  intros Hstride Hx Hy Hlen.
  unfold ColorToYUV8 in Hplanes. injection Hplanes as Hpy _ _.
  cbn [fst snd aom_image.plane_Y aom_image.set_planes]. rewrite <- Hpy.
  apply (store_per_pixel GetYUVCoefficiants colorInfo bgraImage
           (aom_image.stride_Y (aom_image.set_range fresh AOM_CR_FULL_RANGE))
           (aom_image.stride_U (aom_image.set_range fresh AOM_CR_FULL_RANGE))
           (aom_image.stride_V (aom_image.set_range fresh AOM_CR_FULL_RANGE))
           yPlane yuvFormat _ (aom_image.stride_Y fresh)
           (fun p => yuvToUNorm ChanY
              (YUVBlock.y (pixelYUV (GetYUVCoefficiants colorInfo) bgraImage p))));
    try done.
  intros X Y t HX HY.
  apply (convertBlock_yPlane GetYUVCoefficiants colorInfo bgraImage
           (aom_image.stride_Y fresh)); done.
Qed.

Lemma X15_color_image_layout_and_luma_witness :
  exists color,
    (ConvertColorToAOMImage bt601_lookup raster_2x3 tt Subsampling420 AOM_IMG_FMT_I420
       (sample_world patient_host [Some fresh_I420_2x3])).1 = Some color /\
    aom_image.plane_Y color !! (1 + 2 * 16) =
    Some (yuvToUNorm ChanY (YUVBlock.y (pixelYUV bt601 raster_2x3 (1, 2)))).
Proof.
  destruct (X15_color_image_layout_and_luma unit bt601_lookup raster_2x3 tt
              Subsampling420 AOM_IMG_FMT_I420
              (sample_world patient_host [Some fresh_I420_2x3]) fresh_I420_2x3 [] 1 2)
    as (color & Hcolor & _ & Hluma); [reflexivity|].
  exists color. split; [exact Hcolor|]. apply Hluma; simpl; lia.
Defined.

(** X16.  A raster of width 0 or height 0 has no pixel: both converters
    return every plane as it went in, in every mode. *)
Theorem X16_empty_raster_stores_nothing
    (ColorConversionInfo : Type)
    (GetYUVCoefficiants : ColorConversionInfo -> YUVCoefficiants.t)
    (bgraImage : BitmapData.t) (colorInfo : ColorConversionInfo)
    (mode : YUVChromaSubsampling)
    (yPlane0 uPlane0 vPlane0 : list Z) (ys us vs : nat) :
  BitmapData.width bgraImage = 0 \/ BitmapData.height bgraImage = 0 ->
  ColorToYUV8 GetYUVCoefficiants bgraImage colorInfo mode
    yPlane0 ys uPlane0 us vPlane0 vs = (yPlane0, uPlane0, vPlane0) /\
  AlphaToY8 bgraImage yPlane0 ys = yPlane0.
Proof.
  intros Hempty. split.
  - unfold ColorToYUV8.
    set (s0 := mkConv yuvBlock_init yPlane0 uPlane0 vPlane0).
    assert (ColorToYUV8_loops _ GetYUVCoefficiants bgraImage colorInfo mode ys us vs s0
            = s0) as ->; [|done].
    unfold ColorToYUV8_loops. destruct Hempty as [-> | ->]; [|done].
    apply (for_range_inv (fun t => t = s0)); [|done]. by intros Y t _ ->.
  - unfold AlphaToY8. destruct Hempty as [-> | ->]; [|done].
    apply (for_range_inv (fun t => t = yPlane0)); [|done]. by intros y t _ ->.
Qed.

Lemma X16_empty_raster_stores_nothing_witness :
  ColorToYUV8 bt601_lookup (BitmapData.mk [] 0 5 0) tt Subsampling420
    [1; 2]%Z 1 [3]%Z 1 [4]%Z 1 = ([1; 2], [3], [4])%Z.
Proof.
  apply (X16_empty_raster_stores_nothing unit bt601_lookup (BitmapData.mk [] 0 5 0) tt
           Subsampling420 [1; 2]%Z [3]%Z [4]%Z 1 1 1).
  left. reflexivity.
Defined.
